(** * MongoIndexRaptor: the measurement harness, its reducer and orchestrator

    A shallow embedding of [mongo_index_perf_test] (tester.py, models.py,
    main.py, formatters.py, config.py) together with the properties of the
    written specification that can be stated over it.

    Conventions of the embedding.
    - Python values whose dynamic type matters (query documents, configuration
      entries) are [pyval]; a [dict] is an association list in insertion
      order with unique keys.
    - A Python call either returns or raises: [outcome].
    - The database is an abstract capability [Server]; every request is
      appended to a history, and the server's answer is a function of the
      history so far and of the request.
    - A [float] is a rational number ([Q]).  The interpolation of
      [statistics.quantiles] rounds after each of its operations, and the
      order of its results depends on that: its rounding is a parameter
      [fround] of the model, and [round_double] is the rounding of binary64.
      The other statistics are computed exactly. *)

From Stdlib Require Import String Ascii List ZArith QArith Qround Bool Lia Lqa.
From Stdlib Require Import Sorting.Mergesort Sorting.Sorted Sorting.Permutation.
From Stdlib Require Import Orders DecimalString.
Import ListNotations.

Local Open Scope string_scope.
Local Open Scope list_scope.
Local Open Scope Z_scope.

(** ** Python values and exceptions *)

#[local] Set Warnings "-register-all".

Inductive pyval : Type :=
| PNone
| PBool (b : bool)
| PInt (z : Z)
| PStr (s : string)
| PList (l : list pyval)
| PDict (d : list (string * pyval))
| PObjectId (hex : string).

Definition pydict := list (string * pyval).

(** An index hint, [Dict[str, int]]: field name to direction, in insertion
    order. *)
Definition IndexHint := list (string * Z).

(** Python truthiness, as used by [if query.get('sort'):]. *)
Definition truthy (v : pyval) : bool :=
  match v with
  | PNone => false
  | PBool b => b
  | PInt z => negb (z =? 0)
  | PStr s => negb (s =? "")%string
  | PList l => match l with [] => false | _ => true end
  | PDict d => match d with [] => false | _ => true end
  | PObjectId _ => true
  end.

(** The exceptions that occur in the package.  [ConnectionFailure] is a
    subclass of [PyMongoError] in the driver. *)
Inductive exn : Type :=
| PyMongoError (msg : string)
| ConnectionFailure (msg : string)
| KeyError (key : string)
| ValueError (msg : string)
| TypeError (msg : string)
| AttributeError (attr : string)
| IndexError
| StatisticsError (msg : string)
| NameError (name : string)
| SystemExit (code : Z).

(** [isinstance(e, errors.PyMongoError)]. *)
Definition is_PyMongoError (e : exn) : bool :=
  match e with
  | PyMongoError _ | ConnectionFailure _ => true
  | _ => false
  end.

(** [isinstance(e, errors.ConnectionFailure)]. *)
Definition is_ConnectionFailure (e : exn) : bool :=
  match e with
  | ConnectionFailure _ => true
  | _ => false
  end.

(** [str(e)] for the driver's errors; other exceptions are never rendered
    by the package. *)
Definition exn_str (e : exn) : string :=
  match e with
  | PyMongoError m | ConnectionFailure m | ValueError m | TypeError m
  | StatisticsError m => m
  | KeyError k => k
  | AttributeError a => a
  | NameError n => n
  | IndexError => "list index out of range"
  | SystemExit _ => ""
  end.

Inductive outcome (A : Type) : Type :=
| Return (a : A)
| Raise (e : exn).
Arguments Return {A} a.
Arguments Raise {A} e.

(** ** Dictionaries *)

Fixpoint dict_get {V : Type} (k : string) (d : list (string * V)) : option V :=
  match d with
  | [] => None
  | (k', v) :: d' => if (k =? k')%string then Some v else dict_get k d'
  end.

(** [k in d] *)
Definition dict_mem {V : Type} (k : string) (d : list (string * V)) : bool :=
  match dict_get k d with Some _ => true | None => false end.

(** [d[k]]: raises [KeyError] on a missing key. *)
Definition dict_item (k : string) (d : pydict) : outcome pyval :=
  match dict_get k d with
  | Some v => Return v
  | None => Raise (KeyError k)
  end.

(** [d.get(k)]: [None] on a missing key. *)
Definition dict_get_none (k : string) (d : pydict) : pyval :=
  match dict_get k d with
  | Some v => v
  | None => PNone
  end.

(** ** The query cursor of the driver

    A cursor only records how it was composed; nothing is sent before it is
    iterated or explained.  A fresh cursor has no projection, no sort, skip
    0, limit 0 (which the driver reads as "no limit") and no hint. *)

Record Cursor : Type := mkCursor {
  cur_filter : pyval;
  cur_projection : option pyval;
  cur_sort : option pyval;
  cur_skip : pyval;
  cur_limit : pyval;
  cur_hint : option IndexHint
}.

(** [coll.find(filter)] and [coll.find(filter, projection)] *)
Definition find (filter : pyval) (projection : option pyval) : Cursor :=
  mkCursor filter projection None (PInt 0) (PInt 0) None.

Definition cursor_sort (v : pyval) (c : Cursor) : Cursor :=
  mkCursor (cur_filter c) (cur_projection c) (Some v) (cur_skip c) (cur_limit c) (cur_hint c).

Definition cursor_skip (v : pyval) (c : Cursor) : Cursor :=
  mkCursor (cur_filter c) (cur_projection c) (cur_sort c) v (cur_limit c) (cur_hint c).

Definition cursor_limit (v : pyval) (c : Cursor) : Cursor :=
  mkCursor (cur_filter c) (cur_projection c) (cur_sort c) (cur_skip c) v (cur_hint c).

Definition cursor_hint (h : IndexHint) (c : Cursor) : Cursor :=
  mkCursor (cur_filter c) (cur_projection c) (cur_sort c) (cur_skip c) (cur_limit c) (Some h).

(** [command = command.m(query[k]) if query.get(k)] *)
Definition apply_if_truthy (k : string) (m : pyval -> Cursor -> Cursor)
    (query : pydict) (c : Cursor) : Cursor :=
  if truthy (dict_get_none k query) then m (dict_get_none k query) c else c.

(** tester.py, [_build_query_cursor].  The condition of the conditional
    expression is evaluated first, then [query['filter']] in the chosen
    branch, which raises [KeyError] when the query has no filter. *)
Definition _build_query_cursor (query : pydict) (index_hint : IndexHint) : outcome Cursor :=
  match dict_item "filter" query with
  | Raise e => Raise e
  | Return flt =>
      let command :=
        match dict_get_none "project" query with
        | PNone => find flt None
        | p => find flt (Some p)
        end in
      let command := apply_if_truthy "sort" cursor_sort query command in
      let command := apply_if_truthy "skip" cursor_skip query command in
      let command := apply_if_truthy "limit" cursor_limit query command in
      let command :=
        match index_hint with
        | [] => command
        | _ => cursor_hint index_hint command
        end in
      Return command
  end.

(** ** The database capability and the history of requests *)

Inductive db_call : Type :=
| CallBuildInfo
    (* client.admin.command("buildInfo") *)
| CallAdminPlanCacheClear (ns : string)
    (* client.admin.command({"planCacheClear": "<database>.<collection>"}) *)
| CallClientPlanCacheClear (collection database : string)
    (* client.command("planCacheClear", collection, database=database) *)
| CallFind (database collection : string) (c : Cursor)
    (* list(cursor) on client[database][collection] *)
| CallExplain (database collection : string) (c : Cursor).
    (* cursor.explain() on client[database][collection] *)

(** What the driver makes of a request, including a request it rejects
    before anything is sent, is part of the server's answer.

    Requests issued so far, most recent first. *)
Definition history := list db_call.

(** The [executionStats] section of an explain reply; an entry may be
    missing, which the harness reads with [.get(..., 0)]. *)
Record ExecutionStats : Type := mkStats {
  totalDocsExamined : option Z;
  totalKeysExamined : option Z
}.

Record Server : Type := mkServer {
  (* the "version" entry of the buildInfo reply, when present *)
  srv_buildInfo : history -> outcome (option string);
  srv_planCacheClear : history -> db_call -> outcome unit;
  (* the number of documents the iterated cursor yields *)
  srv_find : history -> string -> string -> Cursor -> outcome nat;
  (* the "executionStats" entry of the explain reply, when present *)
  srv_explain : history -> string -> string -> Cursor -> outcome (option ExecutionStats);
  (* time.perf_counter(), in seconds *)
  perf_counter : history -> Q
}.

(** ** Computations over the history *)

(** A computation over a state of type [W] that returns or raises; the
    state reached is kept in both cases. *)
Definition State (W A : Type) : Type := W -> outcome A * W.

Definition M (A : Type) : Type := State history A.

Definition ret {W A} (a : A) : State W A := fun w => (Return a, w).

Definition raise {W A} (e : exn) : State W A := fun w => (Raise e, w).

Definition bind {W A B} (m : State W A) (k : A -> State W B) : State W B :=
  fun w =>
    match m w with
    | (Return a, w') => k a w'
    | (Raise e, w') => (Raise e, w')
    end.

Definition lift {W A} (o : outcome A) : State W A := fun w => (o, w).

(** A request: the server answers from the history before the request, and
    the request is recorded whether or not it fails. *)
Definition request {A} (c : db_call) (answer : history -> outcome A) : M A :=
  fun h => (answer h, c :: h).

(** [time.perf_counter()]: reading the clock is not a request. *)
Definition read_clock (srv : Server) : M Q :=
  fun h => (Return (perf_counter srv h), h).

(** [try: m  except <cls> as e: handler e], where [catches] is the
    [isinstance] test of the except clause. *)
Definition try_except {W A} (m : State W A) (catches : exn -> bool)
    (handler : exn -> State W A) : State W A :=
  fun w =>
    match m w with
    | (Return a, w') => (Return a, w')
    | (Raise e, w') => if catches e then handler e w' else (Raise e, w')
    end.

Declare Scope py_scope.
Delimit Scope py_scope with py.
Notation "x <- m ;; k" := (bind m (fun x => k))
  (at level 61, m at next level, right associativity) : py_scope.
Notation "m ;;; k" := (bind m (fun _ => k))
  (at level 61, right associativity) : py_scope.
Local Open Scope py_scope.

(** [for x in l: s = body x s], stopping at the first exception. *)
Fixpoint for_each {W A S : Type} (body : A -> S -> State W S) (l : list A) (s : S)
    : State W S :=
  match l with
  | [] => ret s
  | x :: l' => s' <- body x s ;; for_each body l' s'
  end.

(** [range(n)]: empty when [n <= 0]. *)
Definition py_range (n : Z) : list Z := map Z.of_nat (seq 0 (Z.to_nat n)).

(** ** Version strings *)

Definition digit_of (c : ascii) : option Z :=
  let n := nat_of_ascii c in
  if ((48 <=? n) && (n <=? 57))%nat then Some (Z.of_nat (n - 48)) else None.

(** The characters [int()] skips around a numeral: the whitespace of ASCII
    and, of the characters up to 255, the two that Unicode classes as
    spaces (NEL and the no-break space).  The separators 28 to 31 are not
    skipped. *)
Definition is_space (c : ascii) : bool :=
  let n := nat_of_ascii c in
  (((9 <=? n) && (n <=? 13)) || (n =? 32) || (n =? 133) || (n =? 160))%nat.

Fixpoint lstrip (s : string) : string :=
  match s with
  | EmptyString => EmptyString
  | String c s' => if is_space c then lstrip s' else s
  end.

Fixpoint all_space (s : string) : bool :=
  match s with
  | EmptyString => true
  | String c s' => is_space c && all_space s'
  end.

(** The digits of a numeral: at least one digit, single underscores between
    digits only, then whitespace up to the end.  [after_digit] tells whether
    the previous character was a digit; the result is the value and the
    number of digits. *)
Fixpoint int_digits (s : string) (after_digit : bool) (acc count : Z)
    : option (Z * Z) :=
  match s with
  | EmptyString => if after_digit then Some (acc, count) else None
  | String c s' =>
      match digit_of c with
      | Some d => int_digits s' true (10 * acc + d) (count + 1)
      | None =>
          if Ascii.eqb c "_"%char
          then if after_digit then int_digits s' false acc count else None
          else if after_digit && all_space s then Some (acc, count) else None
      end
  end.

(** [sys.get_int_max_str_digits()], at its default, in the interpreters
    that limit the conversion. *)
Definition int_max_str_digits : Z := 4300.

(** [int(s)] on a string, base 10: surrounding whitespace, an optional sign,
    digits with single underscores between them, and no more digits than
    the interpreter converts; anything else, the empty string included, is
    a [ValueError] (its message is abbreviated). *)
Definition py_int (s : string) : outcome Z :=
  let s := lstrip s in
  let '(sign, digits) :=
    match s with
    | String "+"%char r => (1, r)
    | String "-"%char r => (-1, r)
    | _ => (1, s)
    end in
  match int_digits digits false 0 0 with
  | Some (z, count) =>
      if int_max_str_digits <? count
      then Raise (ValueError "Exceeds the limit for integer string conversion")
      else Return (sign * z)
  | None => Raise (ValueError "invalid literal for int()")
  end.

(** [s.split(".")] *)
Fixpoint split_dot (s : string) : list string :=
  match s with
  | EmptyString => [EmptyString]
  | String c s' =>
      if Ascii.eqb c "."%char then EmptyString :: split_dot s'
      else
        match split_dot s' with
        | x :: xs => String c x :: xs
        | [] => [String c EmptyString]
        end
  end.

Fixpoint map_outcome {A B} (f : A -> outcome B) (l : list A) : outcome (list B) :=
  match l with
  | [] => Return []
  | x :: l' =>
      match f x with
      | Raise e => Raise e
      | Return y =>
          match map_outcome f l' with
          | Raise e => Raise e
          | Return ys => Return (y :: ys)
          end
      end
  end.

(** [tuple(map(int, version_str.split(".")))] *)
Definition parse_version (version_str : string) : outcome (list Z) :=
  map_outcome py_int (split_dot version_str).

(** [a >= b] on tuples of integers: lexicographic, a proper prefix is
    smaller. *)
Fixpoint tuple_ge (a b : list Z) : bool :=
  match a, b with
  | _, [] => true
  | [], _ :: _ => false
  | x :: a', y :: b' => if x =? y then tuple_ge a' b' else y <? x
  end.

(** ** The [statistics] module *)

Module QOrder <: TotalLeBool.
Definition t := Q.
Definition leb := Qle_bool.
Theorem leb_total : forall a1 a2, leb a1 a2 = true \/ leb a2 a1 = true.
Proof.
  intros a1 a2. unfold leb. rewrite !Qle_bool_iff.
  destruct (Qlt_le_dec a1 a2) as [H | H]; [left; apply Qlt_le_weak, H | right; exact H].
Qed.
End QOrder.

Module QSort := Sort QOrder.

(** [sorted(times)] *)
Definition sorted (l : list Q) : list Q := QSort.sort l.

Definition Qsum (l : list Q) : Q := fold_right Qplus 0%Q l.

Definition Qlen (l : list Q) : Q := inject_Z (Z.of_nat (length l)).

(** [statistics.mean] *)
Definition mean (data : list Q) : outcome Q :=
  match data with
  | [] => Raise (StatisticsError "mean requires at least one data point")
  | _ => Return (Qsum data / Qlen data)%Q
  end.

(** [statistics.mean] on a list of [int] *)
Definition mean_int (data : list Z) : outcome Q := mean (map inject_Z data).

Section Stdev.

(** The square root of the floating-point unit. *)
Variable fsqrt : Q -> Q.

(** [statistics.stdev]: the square root of the sample variance. *)
Definition stdev (data : list Q) : outcome Q :=
  if (Z.of_nat (length data) <? 2)
  then Raise (StatisticsError "variance requires at least two data points")
  else
    let c := (Qsum data / Qlen data)%Q in
    let ss := Qsum (map (fun x => (x - c) * (x - c))%Q data) in
    Return (fsqrt (ss / (Qlen data - 1))%Q).

End Stdev.

(** One cut point of [statistics.quantiles(data, n=n)] with the default
    method "exclusive": the body of its loop, for [i] in [1 .. n-1], on the
    sorted data of length [ld].  The clamp keeps both indices inside the
    list. *)
Definition cut_index (ld n i : Z) : Z :=
  let j := i * (ld + 1) / n in
  if j <? 1 then 1 else if ld - 1 <? j then ld - 1 else j.

Section Quantiles.

(** The rounding of the floating-point unit: what it makes of the exact
    result of one operation. *)
Variable fround : Q -> Q.

(** [(data[j - 1] * (n - delta) + data[j] * delta) / n]: two products, a sum
    and a quotient, each rounded. *)
Definition cut_point (data : list Q) (n i : Z) : Q :=
  let ld := Z.of_nat (length data) in
  let m := ld + 1 in
  let j := cut_index ld n i in
  let delta := i * m - j * n in
  fround
    (fround (fround (nth (Z.to_nat (j - 1)) data 0 * inject_Z (n - delta))
             + fround (nth (Z.to_nat j) data 0 * inject_Z delta))
     / inject_Z n)%Q.

(** [statistics.quantiles(data, n=n)] *)
Definition quantiles (data : list Q) (n : Z) : outcome (list Q) :=
  if n <? 1 then Raise (StatisticsError "n must be at least 1")
  else
    let data := sorted data in
    if Z.of_nat (length data) <? 2
    then Raise (StatisticsError "must have at least two data points")
    else Return (map (fun i => cut_point data n (Z.of_nat i)) (seq 1 (Z.to_nat n - 1))).

End Quantiles.

(** Rounding to the nearest binary64 number, ties to the even significand,
    for the magnitudes of the normal range: [2 ^ e] is the weight of the
    last of the 53 bits of the significand. *)
Definition pow2 (e : Z) : Q :=
  if 0 <=? e then inject_Z (2 ^ e) else (1 / inject_Z (2 ^ (- e)))%Q.

Definition binade (a : Q) : Z :=
  let e := Z.log2 (Qnum a) - Z.log2 (Zpos (Qden a)) - 52 in
  if Qle_bool (pow2 (e + 52)) a then e else e - 1.

Definition round_half_even (a : Q) : Z :=
  let f := Qfloor a in
  match (a - inject_Z f ?= 1 # 2)%Q with
  | Lt => f
  | Gt => f + 1
  | Eq => if Z.even f then f else f + 1
  end.

Definition round_double (q : Q) : Q :=
  match (q ?= 0)%Q with
  | Eq => 0%Q
  | Gt => let e := binade q in
          (inject_Z (round_half_even (q / pow2 e)) * pow2 e)%Q
  | Lt => let e := binade (- q) in
          (- (inject_Z (round_half_even (- q / pow2 e)) * pow2 e))%Q
  end.

(** [l[i]] with Python's negative indices. *)
Definition list_item {A} (l : list A) (i : Z) : outcome A :=
  let len := Z.of_nat (length l) in
  let k := if i <? 0 then i + len else i in
  if (k <? 0) || (len <=? k) then Raise IndexError
  else
    match nth_error l (Z.to_nat k) with
    | Some x => Return x
    | None => Raise IndexError
    end.

Definition bind_outcome {A B} (o : outcome A) (k : A -> outcome B) : outcome B :=
  match o with
  | Return a => k a
  | Raise e => Raise e
  end.

Notation "x <-- o ;; k" := (bind_outcome o (fun x => k))
  (at level 61, o at next level, right associativity) : py_scope.

(** ** models.py: [TestResult] *)

Record TestResult : Type := mkTestResult {
  query : pydict;
  hint : IndexHint;
  iteration : Z;
  warmup_iteration : Z;
  sample_interval : Z;
  avg_time : Q;
  min_time : Q;
  max_time : Q;
  stdev_time : Q;
  percentile_95 : Q;
  percentile_99 : Q;
  avg_docs_examined : Q;
  avg_keys_examined : Q;
  error : option string
}.

(** The value of a keyword argument of the [TestResult(...)] calls. *)
Inductive field_value : Type :=
| FQuery (q : pydict)
| FHint (h : IndexHint)
| FInt (z : Z)
| FFloat (q : Q)
| FError (e : option string).

Definition kwargs := list (string * field_value).

(** The fields of the dataclass in declaration order, each with its default
    when it has one. *)
Definition TestResult_fields : list (string * option field_value) :=
  [ ("query", None); ("hint", None); ("iteration", None);
    ("warmup_iteration", None); ("sample_interval", None);
    ("avg_time", None); ("min_time", None); ("max_time", None);
    ("stdev_time", None);
    ("percentile_95", Some (FFloat 0)); ("percentile_99", Some (FFloat 0));
    ("avg_docs_examined", Some (FFloat 0)); ("avg_keys_examined", Some (FFloat 0));
    ("error", Some (FError None)) ].

Definition as_dict (v : field_value) : pydict :=
  match v with FQuery q => q | _ => [] end.
Definition as_hint (v : field_value) : IndexHint :=
  match v with FHint h => h | _ => [] end.
Definition as_int (v : field_value) : Z :=
  match v with FInt z => z | _ => 0 end.
Definition as_float (v : field_value) : Q :=
  match v with FFloat q => q | FInt z => inject_Z z | _ => 0%Q end.
Definition as_error (v : field_value) : option string :=
  match v with FError e => e | _ => None end.

(** The value a field takes in a call: the keyword argument, else the
    default; a field with neither is a missing required argument. *)
Definition field_arg (kw : kwargs) (name : string) : outcome field_value :=
  match dict_get name kw with
  | Some v => Return v
  | None =>
      match dict_get name TestResult_fields with
      | Some (Some dflt) => Return dflt
      | _ => Raise (TypeError ("TestResult.__init__() missing required argument '"
                               ++ name ++ "'")%string)
      end
  end.

(** The first keyword that is not a field of the dataclass. *)
Fixpoint unexpected_keyword (kw : kwargs) : option string :=
  match kw with
  | [] => None
  | (k, _) :: kw' => if dict_mem k TestResult_fields then unexpected_keyword kw' else Some k
  end.

(** The generated [__init__] of the dataclass, called with keyword
    arguments only. *)
Definition TestResult_init (kw : kwargs) : outcome TestResult :=
  match unexpected_keyword kw with
  | Some k => Raise (TypeError ("TestResult.__init__() got an unexpected keyword argument '"
                         ++ k ++ "'")%string)
  | None =>
      q <-- field_arg kw "query" ;;
      h <-- field_arg kw "hint" ;;
      it <-- field_arg kw "iteration" ;;
      wu <-- field_arg kw "warmup_iteration" ;;
      si <-- field_arg kw "sample_interval" ;;
      avg <-- field_arg kw "avg_time" ;;
      mn <-- field_arg kw "min_time" ;;
      mx <-- field_arg kw "max_time" ;;
      sd <-- field_arg kw "stdev_time" ;;
      p95 <-- field_arg kw "percentile_95" ;;
      p99 <-- field_arg kw "percentile_99" ;;
      de <-- field_arg kw "avg_docs_examined" ;;
      ke <-- field_arg kw "avg_keys_examined" ;;
      er <-- field_arg kw "error" ;;
      Return (mkTestResult (as_dict q) (as_hint h) (as_int it) (as_int wu) (as_int si)
                (as_float avg) (as_float mn) (as_float mx) (as_float sd)
                (as_float p95) (as_float p99) (as_float de) (as_float ke)
                (as_error er))
  end.

(** ** tester.py: [IndexPerformanceTester] *)

(** The percentile entries of [_calculate_results]: entry [k] of the 99 cut
    points when there are at least five samples, [0.0] otherwise. *)
Definition percentile (fround : Q -> Q) (k : Z) (sorted_times : list Q)
    : outcome Q :=
  if 5 <=? Z.of_nat (length sorted_times)
  then qs <-- quantiles fround sorted_times 100 ;; list_item qs k
  else Return 0%Q.

(** [statistics.mean(xs) if xs else 0.0] *)
Definition mean_or_zero (xs : list Z) : outcome Q :=
  match xs with
  | [] => Return 0%Q
  | _ => mean_int xs
  end.

Section Harness.

Variable srv : Server.
Variable fsqrt : Q -> Q.
Variable fround : Q -> Q.

(** [_clear_plan_cache].  The buildInfo lookup is outside the inner [try];
    the version comparison and the clear command are inside it, and only
    a [PyMongoError] is downgraded to a warning. *)
Definition _clear_plan_cache (database collection : string) : M unit :=
  build_info <- request CallBuildInfo (srv_buildInfo srv) ;;
  let version := match build_info with Some v => v | None => "" end in
  try_except
    (v <- lift (parse_version version) ;;
     t <- lift (parse_version "4.4") ;;
     if tuple_ge v t
     then
       let c := CallAdminPlanCacheClear (database ++ "." ++ collection)%string in
       request c (fun h => srv_planCacheClear srv h c)
     else
       let c := CallClientPlanCacheClear collection database in
       request c (fun h => srv_planCacheClear srv h c))
    is_PyMongoError
    (fun _ => ret tt).

(** [_perform_warmup]: the composed cursor with [.limit(0)] applied on
    top, iterated and discarded. *)
Definition _perform_warmup (database collection : string) (query : pydict)
    (index_hint : IndexHint) (warmup_iterations : Z) : M unit :=
  for_each
    (fun (_ : Z) (_ : unit) =>
       cursor <- lift (_build_query_cursor query index_hint) ;;
       let cursor := cursor_limit (PInt 0) cursor in
       request (CallFind database collection cursor)
               (fun h => srv_find srv h database collection cursor) ;;;
       ret tt)
    (py_range warmup_iterations) tt.

(** [_collect_execution_stats]: both lists are extended after the explain
    has returned. *)
Definition _collect_execution_stats (database collection : string)
    (query : pydict) (index_hint : IndexHint)
    (docs_examined keys_examined : list Z) : M (list Z * list Z) :=
  cursor <- lift (_build_query_cursor query index_hint) ;;
  explain_result <- request (CallExplain database collection cursor)
                      (fun h => srv_explain srv h database collection cursor) ;;
  let stats :=
    match explain_result with
    | Some s => s
    | None => mkStats None None
    end in
  let de := match totalDocsExamined stats with Some z => z | None => 0 end in
  let ke := match totalKeysExamined stats with Some z => z | None => 0 end in
  ret (docs_examined ++ [de], keys_examined ++ [ke]).

(** The four lists [_perform_testing] accumulates:
    [times, docs_examined, keys_examined, docs_returned]. *)
Definition samples : Type := (list Q * list Z * list Z * list Z)%type.

(** One iteration of the loop of [_perform_testing]. *)
Definition testing_iteration (database collection : string) (query : pydict)
    (index_hint : IndexHint) (iterations sample_interval : Z)
    (i : Z) (acc : samples) : M samples :=
  let '(times, docs_examined, keys_examined, docs_returned) := acc in
  start_time <- read_clock srv ;;
  cursor <- lift (_build_query_cursor query index_hint) ;;
  result_count <- request (CallFind database collection cursor)
                    (fun h => srv_find srv h database collection cursor) ;;
  let docs_returned := docs_returned ++ [Z.of_nat result_count] in
  now <- read_clock srv ;;
  let elapsed := (now - start_time)%Q in
  let times := times ++ [elapsed] in
  if (0 <? sample_interval)
     && ((i mod sample_interval =? 0) || (i =? iterations - 1))
  then
    st <- _collect_execution_stats database collection query index_hint
            docs_examined keys_examined ;;
    ret (times, fst st, snd st, docs_returned)
  else ret (times, docs_examined, keys_examined, docs_returned).

Definition _perform_testing (database collection : string) (query : pydict)
    (index_hint : IndexHint) (iterations sample_interval : Z) : M samples :=
  for_each
    (testing_iteration database collection query index_hint iterations sample_interval)
    (py_range iterations) ([], [], [], []).

(** The keyword arguments [_calculate_results] evaluates, left to right,
    for its [TestResult(...)] call. *)
Definition calculate_kwargs (query : pydict) (index_hint : IndexHint)
    (iteration warmup_iteration sample_interval : Z)
    (times : list Q) (docs_examined keys_examined docs_returned : list Z)
    : outcome kwargs :=
  let sorted_times := sorted times in
  avg <-- mean sorted_times ;;
  mn <-- list_item sorted_times 0 ;;
  mx <-- list_item sorted_times (-1) ;;
  sd <-- (if 1 <? Z.of_nat (length sorted_times)
          then stdev fsqrt sorted_times else Return 0%Q) ;;
  p95 <-- percentile fround 94 sorted_times ;;
  p99 <-- percentile fround 98 sorted_times ;;
  de <-- mean_or_zero docs_examined ;;
  ke <-- mean_or_zero keys_examined ;;
  dr <-- mean_or_zero docs_returned ;;
  Return [ ("query", FQuery query); ("hint", FHint index_hint);
           ("iteration", FInt iteration);
           ("warmup_iteration", FInt warmup_iteration);
           ("sample_interval", FInt sample_interval);
           ("avg_time", FFloat avg); ("min_time", FFloat mn);
           ("max_time", FFloat mx); ("stdev_time", FFloat sd);
           ("percentile_95", FFloat p95); ("percentile_99", FFloat p99);
           ("avg_docs_examined", FFloat de); ("avg_keys_examined", FFloat ke);
           ("avg_docs_returned", FFloat dr) ].

(** [_calculate_results] *)
Definition _calculate_results (query : pydict) (index_hint : IndexHint)
    (iteration warmup_iteration sample_interval : Z)
    (times : list Q) (docs_examined keys_examined docs_returned : list Z)
    : outcome TestResult :=
  kw <-- calculate_kwargs query index_hint iteration warmup_iteration
           sample_interval times docs_examined keys_examined docs_returned ;;
  TestResult_init kw.

(** The keyword arguments of the [TestResult(...)] call in the [except]
    branch of [test_index_performance]. *)
Definition failure_kwargs (query : pydict) (index_hint : IndexHint)
    (iterations warmup_iterations sample_interval : Z) (e : exn) : kwargs :=
  [ ("query", FQuery query); ("hint", FHint index_hint);
    ("iteration", FInt iterations);
    ("warmup_iteration", FInt warmup_iterations);
    ("sample_interval", FInt sample_interval);
    ("avg_time", FInt 0); ("min_time", FInt 0); ("max_time", FInt 0);
    ("stdev_time", FInt 0); ("error", FError (Some (exn_str e))) ].

(** The body of the [try] of [test_index_performance]. *)
Definition measurement (database collection : string) (query : pydict)
    (index_hint : IndexHint) (iterations warmup_iterations sample_interval : Z)
    : M TestResult :=
  _clear_plan_cache database collection ;;;
  _perform_warmup database collection query index_hint warmup_iterations ;;;
  s <- _perform_testing database collection query index_hint iterations
         sample_interval ;;
  let '(times, docs_examined, keys_examined, docs_returned) := s in
  lift (_calculate_results query index_hint iterations warmup_iterations
          sample_interval times docs_examined keys_examined docs_returned).

(** [test_index_performance] *)
Definition test_index_performance (database collection : string)
    (query : pydict) (index_hint : IndexHint)
    (iterations warmup_iterations sample_interval : Z) : M TestResult :=
  try_except
    (measurement database collection query index_hint iterations
       warmup_iterations sample_interval)
    is_PyMongoError
    (fun e =>
       lift (TestResult_init
               (failure_kwargs query index_hint iterations warmup_iterations
                  sample_interval e))).

End Harness.

(** ** [str] of Python values *)

(** [repr(v)], on the values of a decoded JSON document; the quoting of a
    string does not escape. *)
Fixpoint py_repr (v : pyval) : string :=
  match v with
  | PNone => "None"
  | PBool true => "True"
  | PBool false => "False"
  | PInt z => NilZero.string_of_int (Z.to_int z)
  | PStr s => ("'" ++ s ++ "'")%string
  | PList l =>
      ("[" ++
       (fix items (l : list pyval) : string :=
          match l with
          | [] => ""
          | x :: l' =>
              py_repr x ++ match l' with [] => "" | _ => ", " ++ items l' end
          end) l
       ++ "]")%string
  | PDict d =>
      ("{" ++
       (fix items (d : list (string * pyval)) : string :=
          match d with
          | [] => ""
          | (k, x) :: d' =>
              "'" ++ k ++ "': " ++ py_repr x
              ++ match d' with [] => "" | _ => ", " ++ items d' end
          end) d
       ++ "}")%string
  | PObjectId hex => ("ObjectId('" ++ hex ++ "')")%string
  end.

(** [str(v)]: a string is itself, an [ObjectId] its hexadecimal digits,
    anything else its [repr]. *)
Definition py_str (v : pyval) : string :=
  match v with
  | PStr s => s
  | PObjectId hex => hex
  | _ => py_repr v
  end.

(** ** models.py: [TestQuery] *)

Module TestQuery.

(** The dataclass does not check the types of its fields: they hold
    whatever the configuration entry holds. *)
Record t : Type := mk {
  name : pyval;
  query : pyval;
  hints : pyval;
  database : pyval;
  collection : pyval
}.

(** [TestQuery.from_dict] *)
Definition from_dict (data : pydict) : outcome t :=
  if negb (dict_mem "database" data)
  then Raise (ValueError "database is required")
  else if negb (dict_mem "collection" data)
  then Raise (ValueError "collection is required")
  else
    n <-- dict_item "name" data ;;
    q <-- dict_item "query" data ;;
    let hs := match dict_get "hints" data with Some v => v | None => PList [] end in
    d <-- dict_item "database" data ;;
    c <-- dict_item "collection" data ;;
    Return (mk n q hs d c).

(** [__hash__]: the pair of strings that is hashed; the hash itself is
    taken to be free of collisions. *)
Definition hash (q : t) : string * string := (py_str (query q), py_str (hints q)).

End TestQuery.

(** ** models.py: [TestResult.to_dict] and attribute access *)

(** [asdict(self)]: exactly the fields of the dataclass. *)
Definition to_dict (r : TestResult) : list (string * field_value) :=
  [ ("query", FQuery (query r)); ("hint", FHint (hint r));
    ("iteration", FInt (iteration r));
    ("warmup_iteration", FInt (warmup_iteration r));
    ("sample_interval", FInt (sample_interval r));
    ("avg_time", FFloat (avg_time r)); ("min_time", FFloat (min_time r));
    ("max_time", FFloat (max_time r)); ("stdev_time", FFloat (stdev_time r));
    ("percentile_95", FFloat (percentile_95 r));
    ("percentile_99", FFloat (percentile_99 r));
    ("avg_docs_examined", FFloat (avg_docs_examined r));
    ("avg_keys_examined", FFloat (avg_keys_examined r));
    ("error", FError (error r)) ].

(** [result.<attr>] *)
Definition getattr (r : TestResult) (attr : string) : outcome field_value :=
  match dict_get attr (to_dict r) with
  | Some v => Return v
  | None => Raise (AttributeError attr)
  end.

(** ** formatters.py *)

(** How a value is interpolated into an f-string. *)
Inductive fmt : Type :=
| FmtStr                 (* {x} or str(x) *)
| FmtFixed (digits : nat) (* {x:.6f}, {x:.1f} *)
| FmtQuoted              (* "{x}" *)
| FmtOrEmpty.            (* {x or ''} *)

Definition cell : Type := (fmt * field_value)%type.

(** The row of one result: its attributes read left to right. *)
Definition format_row (columns : list (string * fmt)) (r : TestResult)
    : outcome (list cell) :=
  map_outcome (fun col => v <-- getattr r (fst col) ;; Return (snd col, v)) columns.

Record PrettyTable : Type := mkTable {
  title : string;
  field_names : list string;
  rows : list (list cell)
}.

(** What a formatter renders; the layout of the text itself is the
    rendering library's. *)
Inductive document : Type :=
| DocTable (t : PrettyTable)
| DocCSV (header : string) (lines : list (list cell))
| DocJSON (objects : list (list (string * field_value))).

Definition table_field_names : list string :=
  [ "Index Hint"; "Iteration"; "Warmup Iteration"; "Sample Interval";
    "Avg Time (s)"; "Min Time (s)"; "Max Time (s)"; "StdDev"; "95th %";
    "99th %"; "Avg Docs"; "Avg Keys"; "Avg Returned" ].

Definition table_columns : list (string * fmt) :=
  [ ("hint", FmtStr); ("iteration", FmtStr); ("warmup_iteration", FmtStr);
    ("sample_interval", FmtStr);
    ("avg_time", FmtFixed 6); ("min_time", FmtFixed 6); ("max_time", FmtFixed 6);
    ("stdev_time", FmtFixed 6);
    ("percentile_95", FmtFixed 6); ("percentile_99", FmtFixed 6);
    ("avg_docs_examined", FmtFixed 1); ("avg_keys_examined", FmtFixed 1);
    ("avg_docs_returned", FmtFixed 1) ].

(** [TableFormatter.format]: the title is read from [results[0]] before any
    row is added. *)
Definition TableFormatter_format (results : list TestResult) : outcome document :=
  r0 <-- list_item results 0 ;;
  let title := ("query: " ++ py_str (PDict (query r0)))%string in
  rs <-- map_outcome (format_row table_columns) results ;;
  Return (DocTable (mkTable title table_field_names rs)).

Definition csv_header : string :=
  "Query ID,Index Hint,Iteration,Warmup Iteration,Sample Interval,Avg Time (s),Min Time (s),Max Time (s),StdDev,95th %,99th %,Avg Docs,Avg Keys,Avg Returned,Error".

Definition csv_columns : list (string * fmt) :=
  [ ("query", FmtQuoted); ("hint", FmtStr);
    ("iteration", FmtStr); ("warmup_iteration", FmtStr); ("sample_interval", FmtStr);
    ("avg_time", FmtFixed 6); ("min_time", FmtFixed 6); ("max_time", FmtFixed 6);
    ("stdev_time", FmtFixed 6); ("percentile_95", FmtFixed 6);
    ("percentile_99", FmtFixed 6);
    ("avg_docs_examined", FmtFixed 1); ("avg_keys_examined", FmtFixed 1);
    ("avg_docs_returned", FmtFixed 1);
    ("error", FmtOrEmpty) ].

(** [CSVFormatter.format] *)
Definition CSVFormatter_format (results : list TestResult) : outcome document :=
  ls <-- map_outcome (format_row csv_columns) results ;;
  Return (DocCSV csv_header ls).

(** What [json.dumps] serialises of the values a query document holds:
    everything but an [ObjectId]. *)
Fixpoint json_serializable (v : pyval) : bool :=
  match v with
  | PObjectId _ => false
  | PList l => forallb json_serializable l
  | PDict d =>
      (fix entries (d : list (string * pyval)) : bool :=
         match d with
         | [] => true
         | (_, x) :: d' => json_serializable x && entries d'
         end) d
  | _ => true
  end.

(** [JSONFormatter.format]: [json.dumps] raises on the first value it has no
    encoding for. *)
Definition JSONFormatter_format (results : list TestResult) : outcome document :=
  if forallb (fun r => json_serializable (PDict (query r))) results
  then Return (DocJSON (map to_dict results))
  else Raise (TypeError "Object of type ObjectId is not JSON serializable").

(** main.py, [save_results]: the formatter is chosen by name and its output
    returned; writing the file can only log. *)
Definition save_results (results : list TestResult) (output_format : string)
    : outcome document :=
  if (output_format =? "table")%string then TableFormatter_format results
  else if (output_format =? "csv")%string then CSVFormatter_format results
  else if (output_format =? "json")%string then JSONFormatter_format results
  else Raise (SystemExit 1).

(** ** config.py *)

Module DEFAULT_CONFIG.
Definition iterations : Z := 1000.
Definition warmup_iterations : Z := 10.
Definition sample_interval : Z := 1.
Definition output_format : string := "table".
Definition max_retries : Z := 3.
Definition retry_delay_base : Z := 2.
End DEFAULT_CONFIG.

(** ** main.py: the orchestrator *)

(** The names bound in the module namespace of main.py: its imports and its
    own functions. *)
Definition main_globals : list string :=
  [ "sys"; "json"; "time"; "argparse"; "os"; "datetime"; "List"; "ObjectId";
    "DEFAULT_CONFIG"; "logger"; "MongoDBConnection"; "TestQuery"; "TestResult";
    "IndexPerformanceTester"; "TableFormatter"; "CSVFormatter"; "JSONFormatter";
    "json_object_hook"; "load_test_queries"; "save_results"; "main" ].

(** Evaluating a global name. *)
Definition resolve_global (globals : list string) (name : string) : outcome unit :=
  if existsb (String.eqb name) globals then Return tt else Raise (NameError name).

(** The typed reading of the fields of a configuration entry, at the point
    where the orchestrator hands them to the harness.  Entries whose values
    do not have the annotated types are outside the model, which stops on
    them with a [TypeError]. *)
Definition as_str (v : pyval) : outcome string :=
  match v with
  | PStr s => Return s
  | _ => Raise (TypeError "str expected")
  end.

Definition as_pydict (v : pyval) : outcome pydict :=
  match v with
  | PDict d => Return d
  | _ => Raise (TypeError "dict expected")
  end.

Definition as_index_hint (v : pyval) : outcome IndexHint :=
  match v with
  | PDict d =>
      map_outcome
        (fun kv => match snd kv with
                   | PInt z => Return (fst kv, z)
                   | _ => Raise (TypeError "int expected")
                   end) d
  | _ => Raise (TypeError "dict expected")
  end.

Definition as_hints (v : pyval) : outcome (list IndexHint) :=
  match v with
  | PList l => map_outcome as_index_hint l
  | _ => Raise (TypeError "list expected")
  end.

(** Equality of [tuple(hint.items())]: the same pairs in the same order. *)
Fixpoint hint_eqb (a b : IndexHint) : bool :=
  match a, b with
  | [], [] => true
  | (k, v) :: a', (k', v') :: b' => (k =? k')%string && (v =? v') && hint_eqb a' b'
  | _, _ => false
  end.

Definition key_eqb (a b : string * string) : bool :=
  (fst a =? fst b)%string && (snd a =? snd b)%string.

(** The command-line arguments the orchestrator passes on. *)
Record Args : Type := mkArgs {
  arg_iterations : Z;
  arg_warmup : Z;
  arg_sample_interval : Z;
  arg_output_format : string
}.

Section Orchestrator.

(** The state of the outside world, the harness as a capability over it,
    and the opening of the connection ([MongoDBConnection.__enter__]). *)
Variable W : Type.
Variable harness :
  string -> string -> pydict -> IndexHint -> Z -> Z -> Z -> State W TestResult.
Variable connect : State W unit.
Variable globals : list string.

(** What the process has done besides talking to the world. *)
Record Process : Type := mkProcess {
  world : W;
  sleeps : list Z;                          (* time.sleep, most recent first *)
  printed : list document;                  (* print, most recent first *)
  tested_queries : list (string * string)
}.

Definition in_world {A} (m : State W A) : State Process A :=
  fun p =>
    let (o, w') := m (world p) in
    (o, mkProcess w' (sleeps p) (printed p) (tested_queries p)).

Definition sleep (delay : Z) : State Process unit :=
  fun p => (Return tt, mkProcess (world p) (delay :: sleeps p) (printed p) (tested_queries p)).

Definition print (d : document) : State Process unit :=
  fun p => (Return tt, mkProcess (world p) (sleeps p) (d :: printed p) (tested_queries p)).

Definition mark_query_tested (k : string * string) : State Process unit :=
  fun p => (Return tt, mkProcess (world p) (sleeps p) (printed p) (k :: tested_queries p)).

(** The body of [for hint in query.hints]; the accumulator is
    [(results, tested_hints)]. *)
Definition test_hint (args : Args) (q : TestQuery.t) (h : IndexHint)
    (acc : list TestResult * list IndexHint)
    : State W (list TestResult * list IndexHint) :=
  let '(results, tested_hints) := acc in
  if existsb (hint_eqb h) tested_hints then ret acc
  else
    database <- lift (as_str (TestQuery.database q)) ;;
    collection <- lift (as_str (TestQuery.collection q)) ;;
    query <- lift (as_pydict (TestQuery.query q)) ;;
    result <- harness database collection query h (arg_iterations args)
                (arg_warmup args) (arg_sample_interval args) ;;
    match error result with
    | None => ret (results ++ [result], h :: tested_hints)
    | Some _ => ret (results, tested_hints)
    end.

Definition test_hints (args : Args) (q : TestQuery.t) (hs : list IndexHint)
    : State W (list TestResult * list IndexHint) :=
  for_each (test_hint args q) hs ([], []).

(** The body of [for query in test_queries]. *)
Definition test_query (args : Args) (q : TestQuery.t) (_ : unit) : State Process unit :=
  fun p =>
    if existsb (key_eqb (TestQuery.hash q)) (tested_queries p) then (Return tt, p)
    else
      (hs <- lift (as_hints (TestQuery.hints q)) ;;
       acc <- in_world (test_hints args q hs) ;;
       formatted_results <- lift (save_results (fst acc) (arg_output_format args)) ;;
       print formatted_results ;;;
       mark_query_tested (TestQuery.hash q)) p.

(** The body of the [try] of one attempt: open the connection, run the
    whole matrix. *)
Definition attempt_body (args : Args) (test_queries : list TestQuery.t)
    : State Process unit :=
  in_world connect ;;;
  for_each (test_query args) test_queries tt.

(** [for attempt in range(max_retries)] with its [try]/[except].  When the
    body raises, the expression [errors.ConnectionFailure] of the except
    clause is evaluated first. *)
Fixpoint retry_loop (args : Args) (test_queries : list TestQuery.t)
    (attempts : list Z) : State Process unit :=
  match attempts with
  | [] => ret tt
  | attempt :: rest =>
      fun p =>
        match attempt_body args test_queries p with
        | (Return _, p') => (Return tt, p')
        | (Raise e, p') =>
            match resolve_global globals "errors" with
            | Raise ne => (Raise ne, p')
            | Return _ =>
                if is_ConnectionFailure e then
                  if attempt <? DEFAULT_CONFIG.max_retries - 1 then
                    (sleep (DEFAULT_CONFIG.retry_delay_base ^ attempt) ;;;
                     retry_loop args test_queries rest) p'
                  else (Raise (SystemExit 1), p')
                else (Raise e, p')
            end
        end
  end.

(** [main], after the arguments are parsed and the configuration loaded. *)
Definition orchestrate (args : Args) (test_queries : list TestQuery.t)
    : State Process unit :=
  retry_loop args test_queries (py_range DEFAULT_CONFIG.max_retries).

End Orchestrator.

(** [main]: the orchestrator in the module namespace of main.py. *)
Definition main (W : Type)
    (harness : string -> string -> pydict -> IndexHint -> Z -> Z -> Z -> State W TestResult)
    (connect : State W unit) (args : Args) (test_queries : list TestQuery.t)
    : State (Process W) unit :=
  orchestrate W harness connect main_globals args test_queries.

(** ** Concrete worlds used to run the model *)

(** A server on which every request succeeds: each query yields three
    documents, each explain reports ten documents and three keys examined,
    and the clock advances by one second per request. *)
Definition healthy_server : Server :=
  mkServer
    (fun _ => Return (Some "7.0.2"))
    (fun _ _ => Return tt)
    (fun _ _ _ _ => Return 3%nat)
    (fun _ _ _ _ => Return (Some (mkStats (Some 10) (Some 3))))
    (fun h => inject_Z (Z.of_nat (length h))).

(** A connection that is refused twice and then accepted; the world counts
    the attempts. *)
Definition connect_third_time : State nat unit :=
  fun n => (if (n <? 2)%nat then Raise (ConnectionFailure "connection refused")
            else Return tt, S n).

(** A harness that measures nothing and reports success. *)
Definition succeeding_harness (W : Type)
    (database collection : string) (query : pydict) (index_hint : IndexHint)
    (iterations warmup_iterations sample_interval : Z) : State W TestResult :=
  ret (mkTestResult query index_hint iterations warmup_iterations sample_interval
         0 0 0 0 0 0 0 0 None).

Definition default_args : Args :=
  mkArgs DEFAULT_CONFIG.iterations DEFAULT_CONFIG.warmup_iterations
    DEFAULT_CONFIG.sample_interval DEFAULT_CONFIG.output_format.

(** ** Vocabulary of the properties *)

(** The result built in the [except] branch: every numeric field at zero
    and the message of the failure. *)
Definition failed_result (query : pydict) (index_hint : IndexHint)
    (iterations warmup_iterations sample_interval : Z) (msg : string) : TestResult :=
  mkTestResult query index_hint iterations warmup_iterations sample_interval
    0 0 0 0 0 0 0 0 (Some msg).

(** The number of queries executed so far. *)
Definition count_finds (h : history) : nat :=
  length (filter (fun c => match c with CallFind _ _ _ => true | _ => false end) h).

(** A server on which the query issued after [k] earlier queries fails, and
    everything else succeeds. *)
Definition fails_on_find (k : nat) : Server :=
  mkServer
    (fun _ => Return (Some "7.0.2"))
    (fun _ _ => Return tt)
    (fun h _ _ _ =>
       if (count_finds h =? k)%nat then Raise (PyMongoError "cursor killed")
       else Return 3%nat)
    (fun _ _ _ _ => Return (Some (mkStats (Some 10) (Some 3))))
    (fun h => inject_Z (Z.of_nat (length h))).

(** A server whose driver checks the filter of a query as [Collection.find]
    does: one that is not a document is refused with [TypeError]. *)
Definition validating_server : Server :=
  mkServer
    (fun _ => Return (Some "7.0.2"))
    (fun _ _ => Return tt)
    (fun _ _ _ c =>
       match cur_filter c with
       | PDict _ => Return 3%nat
       | _ => Raise (TypeError "filter must be an instance of dict")
       end)
    (fun _ _ _ _ => Return (Some (mkStats (Some 10) (Some 3))))
    (fun h => inject_Z (Z.of_nat (length h))).

(** A harness that measures nothing and reports a failure. *)
Definition failing_harness (W : Type)
    (database collection : string) (query : pydict) (index_hint : IndexHint)
    (iterations warmup_iterations sample_interval : Z) : State W TestResult :=
  ret (failed_result query index_hint iterations warmup_iterations sample_interval
         "cursor killed").

(** The requests that execute or explain a query. *)
Definition is_query_call (c : db_call) : bool :=
  match c with
  | CallFind _ _ _ | CallExplain _ _ _ => true
  | _ => false
  end.

Definition is_explain (c : db_call) : bool :=
  match c with
  | CallExplain _ _ _ => true
  | _ => false
  end.

(** The exception a computation ended with, if any. *)
Definition raised {A} (o : outcome A) : option exn :=
  match o with
  | Return _ => None
  | Raise e => Some e
  end.

(** [emits P m]: every request [m] adds to the history satisfies [P]. *)
Definition emits {A} (P : db_call -> Prop) (m : M A) : Prop :=
  forall h, exists ext, snd (m h) = ext ++ h /\ Forall P ext.

(** The query-builder rule in the words of the specification: a find on the
    filter, with the projection if present; sort, skip and limit applied
    only if truthy; the hint applied only if non-empty. *)
Definition composed_query (flt : pyval) (query : pydict) (index_hint : IndexHint)
    : Cursor :=
  {| cur_filter := flt;
     cur_projection :=
       match dict_get_none "project" query with
       | PNone => None
       | p => Some p
       end;
     cur_sort :=
       if truthy (dict_get_none "sort" query)
       then Some (dict_get_none "sort" query) else None;
     cur_skip :=
       if truthy (dict_get_none "skip" query)
       then dict_get_none "skip" query else PInt 0;
     cur_limit :=
       if truthy (dict_get_none "limit" query)
       then dict_get_none "limit" query else PInt 0;
     cur_hint := match index_hint with [] => None | _ => Some index_hint end |}.

(** The exception with which the server answers a request, if it fails. *)
Definition call_failure (srv : Server) (h : history) (c : db_call) : option exn :=
  match c with
  | CallBuildInfo => raised (srv_buildInfo srv h)
  | CallAdminPlanCacheClear _ | CallClientPlanCacheClear _ _ =>
      raised (srv_planCacheClear srv h c)
  | CallFind d k cur => raised (srv_find srv h d k cur)
  | CallExplain d k cur => raised (srv_explain srv h d k cur)
  end.

Section FailStopVocabulary.

Variable srv : Server.

(** [clean h ext]: every query among the requests [ext] issued on top of
    the history [h] was answered. *)
Fixpoint clean (h : history) (ext : list db_call) : Prop :=
  match ext with
  | [] => True
  | c :: earlier =>
      (is_query_call c = true -> call_failure srv (earlier ++ h) c = None)
      /\ clean h earlier
  end.

(** [stops h ext r]: either every query of [ext] was answered, or the most
    recent request is a query that failed, all queries before it were
    answered, and the computation ended with the exception of that
    failure. *)
Definition stops (h : history) (ext : list db_call) (r : option exn) : Prop :=
  clean h ext
  \/ exists c earlier e,
       ext = c :: earlier /\ is_query_call c = true
       /\ call_failure srv (earlier ++ h) c = Some e
       /\ r = Some e /\ clean h earlier.

Definition failstop {A} (m : M A) : Prop :=
  forall h, exists ext, snd (m h) = ext ++ h /\ stops h ext (raised (fst (m h))).

End FailStopVocabulary.

(** A harness that also records the hints it is invoked with, most recent
    first. *)
Definition logged {W : Type}
    (harness : string -> string -> pydict -> IndexHint -> Z -> Z -> Z -> State W TestResult)
    (database collection : string) (query : pydict) (index_hint : IndexHint)
    (iterations warmup_iterations sample_interval : Z)
    : State (W * list IndexHint) TestResult :=
  fun w =>
    let (o, w') := harness database collection query index_hint iterations
                     warmup_iterations sample_interval (fst w) in
    (o, (w', index_hint :: snd w)).

(** The interpolation of [cut_point] between two neighbours, for [n = 100]:
    the weights are [100 - delta] and [delta], and every operation is
    rounded. *)
Definition interpolate (fround : Q -> Q) (a b : Q) (delta : Z) : Q :=
  fround (fround (fround (a * inject_Z (100 - delta)) + fround (b * inject_Z delta))
          / inject_Z 100)%Q.

(** ** main.py: [load_test_queries] *)

(** [isinstance(e, Exception)]: everything but [SystemExit]. *)
Definition is_Exception (e : exn) : bool :=
  match e with
  | SystemExit _ => false
  | _ => true
  end.

(** [load_test_queries], from the list of objects decoded from the
    configuration file: any [Exception] while the entries are converted is
    logged and turned into [sys.exit(1)]. *)
Definition load_test_queries (data : list pydict) : outcome (list TestQuery.t) :=
  match map_outcome TestQuery.from_dict data with
  | Return qs => Return qs
  | Raise e => if is_Exception e then Raise (SystemExit 1) else Raise e
  end.

(** ** Further vocabulary *)

(** The condition under which iteration [i] of the timed phase collects a
    plan sample. *)
Definition sampled (sample_interval iterations i : Z) : bool :=
  (0 <? sample_interval)
  && ((i mod sample_interval =? 0) || (i =? iterations - 1)).

(** [adds_at_most n m]: [m] adds at most [n] requests to the history. *)
Definition adds_at_most {A} (n : nat) (m : M A) : Prop :=
  forall h, exists ext, snd (m h) = ext ++ h /\ (length ext <= n)%nat.

(** The "version" entry of a buildInfo reply, read with [.get("version", "")]. *)
Definition version_of (build_info : option string) : string :=
  match build_info with
  | Some v => v
  | None => ""
  end.

(** A clock that never runs backwards while requests are made. *)
Definition monotonic_clock (srv : Server) : Prop :=
  forall h c, (perf_counter srv h <= perf_counter srv (c :: h))%Q.

(** A server that refuses the cache-clear command, and one whose buildInfo
    reply carries no version. *)
Definition cache_clear_refused : Server :=
  mkServer
    (fun _ => Return (Some "3.6.8"))
    (fun _ _ => Raise (PyMongoError "not authorized"))
    (fun _ _ _ _ => Return 3%nat)
    (fun _ _ _ _ => Return (Some (mkStats (Some 10) (Some 3))))
    (fun h => inject_Z (Z.of_nat (length h))).

Definition versionless_server : Server :=
  mkServer
    (fun _ => Return None)
    (fun _ _ => Return tt)
    (fun _ _ _ _ => Return 3%nat)
    (fun _ _ _ _ => Return (Some (mkStats (Some 10) (Some 3))))
    (fun h => inject_Z (Z.of_nat (length h))).

(** An entry that has the four keys [from_dict] reads without a default. *)
Definition has_required_keys (data : pydict) : bool :=
  dict_mem "database" data && dict_mem "collection" data
  && dict_mem "name" data && dict_mem "query" data.

(** [keeps_sleeps m]: [m] does not call [time.sleep]. *)
Definition keeps_sleeps {W A} (m : State (Process W) A) : Prop :=
  forall p, sleeps W (snd (m p)) = sleeps W p.

(** ** main.py: [json_object_hook] *)

(** [s.index(c)]: the position of the first occurrence, if any. *)
Fixpoint str_index (c : ascii) (s : string) : option nat :=
  match s with
  | EmptyString => None
  | String a s' =>
      if Ascii.eqb a c then Some 0%nat
      else match str_index c s' with
           | Some i => Some (S i)
           | None => None
           end
  end.

(** [s[a:b]] for bounds that are not negative: the characters at the
    positions from [a] up to, not including, [b], as far as they exist. *)
Definition py_slice (s : string) (a b : nat) : string := substring a (b - a) s.

Section ObjectHook.

(** The identifiers of the driver and their constructor from a string,
    which rejects what is not an identifier. *)
Variable oid : Type.
Variable ObjectId : string -> outcome oid.

(** A decoded JSON value; after the hook has run on the objects inside it,
    it may hold identifiers. *)
Inductive jval : Type :=
| JNone
| JBool (b : bool)
| JInt (z : Z)
| JFloat (q : Q)
| JStr (s : string)
| JList (l : list jval)
| JDict (d : list (string * jval))
| JObjectId (o : oid).

(** The string case of [adjsut_object_id]. *)
Definition adjust_string (value : string) : outcome jval :=
  if prefix "ObjectId(" value then
    match str_index "("%char value with
    | None => Raise (ValueError "substring not found")
    | Some i =>
        match str_index ")"%char value with
        | None => Raise (ValueError "substring not found")
        | Some k =>
            o <-- ObjectId (py_slice value (i + 2) (k - 1)) ;;
            Return (JObjectId o)
        end
    end
  else Return (JStr value).

(** [adjsut_object_id], the function nested in [json_object_hook]. *)
Fixpoint adjsut_object_id (value : jval) : outcome jval :=
  match value with
  | JStr s => adjust_string s
  | JDict d =>
      match
        (fix items (d : list (string * jval)) : outcome (list (string * jval)) :=
           match d with
           | [] => Return []
           | (key, val) :: d' =>
               match adjsut_object_id val with
               | Raise e => Raise e
               | Return v =>
                   match items d' with
                   | Raise e => Raise e
                   | Return r => Return ((key, v) :: r)
                   end
               end
           end) d
      with
      | Raise e => Raise e
      | Return r => Return (JDict r)
      end
  | JList l =>
      match
        (fix elements (l : list jval) : outcome (list jval) :=
           match l with
           | [] => Return []
           | val :: l' =>
               match adjsut_object_id val with
               | Raise e => Raise e
               | Return v =>
                   match elements l' with
                   | Raise e => Raise e
                   | Return r => Return (v :: r)
                   end
               end
           end) l
      with
      | Raise e => Raise e
      | Return r => Return (JList r)
      end
  | _ => Return value
  end.

(** [json_object_hook]: every value of the object is replaced by its
    adjusted value, in the order of the keys. *)
Fixpoint json_object_hook (d : list (string * jval)) : outcome (list (string * jval)) :=
  match d with
  | [] => Return []
  | (key, value) :: d' =>
      match adjsut_object_id value with
      | Raise e => Raise e
      | Return v =>
          match json_object_hook d' with
          | Raise e => Raise e
          | Return r => Return ((key, v) :: r)
          end
      end
  end.

(** A value in which no string starts with "ObjectId(". *)
Fixpoint plain (value : jval) : bool :=
  match value with
  | JStr s => negb (prefix "ObjectId(" s)
  | JDict d =>
      (fix items (d : list (string * jval)) : bool :=
         match d with
         | [] => true
         | (_, val) :: d' => plain val && items d'
         end) d
  | JList l =>
      (fix elements (l : list jval) : bool :=
         match l with
         | [] => true
         | val :: l' => plain val && elements l'
         end) l
  | _ => true
  end.

End ObjectHook.

Arguments JNone {oid}.
Arguments JBool {oid} b.
Arguments JInt {oid} z.
Arguments JFloat {oid} q.
Arguments JStr {oid} s.
Arguments JList {oid} l.
Arguments JDict {oid} d.
Arguments JObjectId {oid} o.

(** Whether a character occurs in a string. *)
Fixpoint occurs (c : ascii) (s : string) : bool :=
  match s with
  | EmptyString => false
  | String a s' => Ascii.eqb a c || occurs c s'
  end.

(** A constructor of identifiers that accepts the strings of 24 characters
    and keeps them as they are. *)
Definition ObjectId_of_24 (s : string) : outcome string :=
  if (String.length s =? 24)%nat then Return s
  else Raise (TypeError "id must be a 24-character hex string").

(** * Properties *)

(** ** Loading a configuration entry *)

(** C10, as stated, fails: an entry whose database is the empty string is
    loaded, with the empty string preserved. *)
Lemma from_dict_accepts_empty_database :
  exists q,
    TestQuery.from_dict
      [ ("name", PStr "by_user"); ("query", PDict [("filter", PDict [])]);
        ("database", PStr ""); ("collection", PStr "events") ] = Return q
    /\ TestQuery.database q = PStr "".
Proof. eexists. split; reflexivity. Qed.

(** An entry with non-empty database and collection but no name is not
    loaded either: the read of the name raises [KeyError]. *)
Lemma from_dict_needs_name :
  TestQuery.from_dict
    [ ("query", PDict [("filter", PDict [])]);
      ("database", PStr "shop"); ("collection", PStr "events") ]
  = Raise (KeyError "name").
Proof. reflexivity. Qed.

(** C10 (amended): loading an entry raises a [ValueError] whenever the key
    "database" or the key "collection" is absent; when both are present,
    together with "name" and "query", the load succeeds and keeps every
    value as it is, whether empty or not. *)
Theorem from_dict_requires_keys (data : pydict) :
  (dict_mem "database" data && dict_mem "collection" data = false ->
   exists msg, TestQuery.from_dict data = Raise (ValueError msg))
  /\ (forall n q d c,
        dict_get "name" data = Some n ->
        dict_get "query" data = Some q ->
        dict_get "database" data = Some d ->
        dict_get "collection" data = Some c ->
        TestQuery.from_dict data
        = Return (TestQuery.mk n q
                    (match dict_get "hints" data with
                     | Some v => v
                     | None => PList []
                     end) d c)).
Proof.
  split.
  - intros H. unfold TestQuery.from_dict.
    destruct (dict_mem "database" data); cbn [negb].
    + cbn [andb] in H. rewrite H. cbn [negb]. eauto.
    + eauto.
  - intros n q d c Hn Hq Hd Hc. unfold TestQuery.from_dict, dict_mem, dict_item.
    rewrite Hn, Hq, Hd, Hc. reflexivity.
Qed.

Lemma from_dict_requires_keys_witness :
  TestQuery.from_dict
    [ ("name", PStr "by_user"); ("query", PDict [("filter", PDict [])]);
      ("database", PStr "shop"); ("collection", PStr "") ]
  = Return (TestQuery.mk (PStr "by_user") (PDict [("filter", PDict [])])
              (PList []) (PStr "shop") (PStr "")).
Proof.
  apply (proj2 (from_dict_requires_keys
                  [ ("name", PStr "by_user"); ("query", PDict [("filter", PDict [])]);
                    ("database", PStr "shop"); ("collection", PStr "") ]));
    reflexivity.
Defined.

(** ** The output of a query without successful trials *)

(** The other two formatters accept an empty sequence of results. *)
Lemma csv_and_json_accept_no_results :
  CSVFormatter_format [] = Return (DocCSV csv_header [])
  /\ JSONFormatter_format [] = Return (DocJSON []).
Proof. split; reflexivity. Qed.

(** C9: on an empty sequence of results the table formatter, which is the
    default output format, reads [results[0]] and raises [IndexError]; so
    does [save_results] with the default format. *)
Theorem table_format_empty_raises :
  TableFormatter_format [] = Raise IndexError
  /\ save_results [] DEFAULT_CONFIG.output_format = Raise IndexError.
Proof. split; reflexivity. Qed.

(** At the level of [main]: a query whose only trial fails reaches
    [save_results] with no result; the [IndexError] of the table formatter
    leaves the loop over the queries, and nothing is printed. *)
Lemma zero_result_query_ends_main :
  let q := TestQuery.mk (PStr "by_user") (PDict [("filter", PDict [])])
             (PList [PDict [("user", PInt 1)]]) (PStr "shop") (PStr "events") in
  orchestrate unit (failing_harness unit) (ret tt) ("errors" :: main_globals)
    default_args [q] (mkProcess unit tt [] [] [])
  = (Raise IndexError, mkProcess unit tt [] [] []).
Proof. reflexivity. Qed.

(** ** The connection retry loop *)

(** Whatever the body of the first attempt raises, the except clause cannot
    be evaluated in the namespace of main.py: the process ends with a
    [NameError], without sleeping and without a second attempt. *)
Lemma main_first_failure_is_fatal (W : Type) harness connect args qs
    (p p' : Process W) (e : exn) :
  attempt_body W harness connect args qs p = (Raise e, p') ->
  main W harness connect args qs p = (Raise (NameError "errors"), p').
Proof.
  intros H. unfold main, orchestrate, py_range, DEFAULT_CONFIG.max_retries.
  change (Z.to_nat 3) with 3%nat. cbn [seq map]. cbn [retry_loop].
  rewrite H. reflexivity.
Qed.

(** With the name [errors] bound, two refused connections followed by an
    accepted one give two sleeps, of 2^0 and then 2^1 seconds. *)
Lemma retry_with_errors_bound :
  orchestrate nat (succeeding_harness nat) connect_third_time
    ("errors" :: main_globals) default_args [] (mkProcess nat 0%nat [] [] [])
  = (Return tt, mkProcess nat 3%nat [2; 1] [] []).
Proof. reflexivity. Qed.

(** C8: two refused connections followed by an accepted one.  The first
    refusal already ends the process with [NameError]: no sleep is made and
    the connection is attempted once. *)
Theorem main_connection_refused_twice :
  main nat (succeeding_harness nat) connect_third_time default_args []
    (mkProcess nat 0%nat [] [] [])
  = (Raise (NameError "errors"), mkProcess nat 1%nat [] [] []).
Proof. reflexivity. Qed.

(** ** The harness: what reaches the caller *)

Lemma failure_kwargs_accepted query index_hint iterations warmup_iterations
    sample_interval e :
  TestResult_init
    (failure_kwargs query index_hint iterations warmup_iterations sample_interval e)
  = Return (failed_result query index_hint iterations warmup_iterations
              sample_interval (exn_str e)).
Proof. reflexivity. Qed.

(** The dataclass has no field [avg_docs_returned]. *)
Lemma TestResult_has_no_avg_docs_returned :
  dict_mem "avg_docs_returned" TestResult_fields = false.
Proof. reflexivity. Qed.

Lemma mean_not_driver_error data e :
  mean data = Raise e -> is_PyMongoError e = false.
Proof. destruct data; cbn; intros H; inversion H; reflexivity. Qed.

Lemma list_item_not_driver_error {A} (l : list A) i e :
  list_item l i = Raise e -> is_PyMongoError e = false.
Proof.
  unfold list_item. intros H.
  repeat match type of H with
         | context [if ?b then _ else _] => destruct b
         | context [match ?x with _ => _ end] => destruct x
         end; inversion H; reflexivity.
Qed.

Lemma quantiles_not_driver_error fround data n e :
  quantiles fround data n = Raise e -> is_PyMongoError e = false.
Proof.
  unfold quantiles. intros H.
  repeat match type of H with
         | context [if ?b then _ else _] => destruct b
         end; inversion H; reflexivity.
Qed.

Lemma percentile_not_driver_error fround k l e :
  percentile fround k l = Raise e -> is_PyMongoError e = false.
Proof.
  unfold percentile, bind_outcome. intros H.
  destruct (5 <=? Z.of_nat (length l)); [| discriminate].
  destruct (quantiles fround l 100) eqn:Hq.
  - eapply list_item_not_driver_error, H.
  - inversion H; subst. eapply quantiles_not_driver_error, Hq.
Qed.

Lemma mean_or_zero_not_driver_error xs e :
  mean_or_zero xs = Raise e -> is_PyMongoError e = false.
Proof.
  destruct xs; cbn; [discriminate |]. intros H. inversion H.
Qed.

Lemma stdev_not_driver_error fsqrt data e :
  stdev fsqrt data = Raise e -> is_PyMongoError e = false.
Proof.
  unfold stdev. destruct (Z.of_nat (length data) <? 2); intros H; inversion H; reflexivity.
Qed.

(** The [TestResult(...)] call of [_calculate_results] passes
    [avg_docs_returned], so [_calculate_results] never returns; what it
    raises is never an error of the driver. *)
Lemma calculate_results_raises fsqrt fround query index_hint iteration warmup_iteration
    sample_interval times docs_examined keys_examined docs_returned :
  exists e,
    _calculate_results fsqrt fround query index_hint iteration warmup_iteration
      sample_interval times docs_examined keys_examined docs_returned = Raise e
    /\ is_PyMongoError e = false.
Proof.
  unfold _calculate_results, calculate_kwargs.
  destruct (mean (sorted times)) eqn:H1; cbn [bind_outcome];
    [| eexists; split; [reflexivity | eapply mean_not_driver_error, H1]].
  destruct (list_item (sorted times) 0) eqn:H2; cbn [bind_outcome];
    [| eexists; split; [reflexivity | eapply list_item_not_driver_error, H2]].
  destruct (list_item (sorted times) (-1)) eqn:H3; cbn [bind_outcome];
    [| eexists; split; [reflexivity | eapply list_item_not_driver_error, H3]].
  destruct (if 1 <? Z.of_nat (length (sorted times))
            then stdev fsqrt (sorted times) else Return 0%Q) eqn:H4; cbn [bind_outcome].
  2:{ eexists; split; [reflexivity |].
      destruct (1 <? Z.of_nat (length (sorted times))); [| discriminate].
      eapply stdev_not_driver_error, H4. }
  destruct (percentile fround 94 (sorted times)) eqn:H5; cbn [bind_outcome];
    [| eexists; split; [reflexivity | eapply percentile_not_driver_error, H5]].
  destruct (percentile fround 98 (sorted times)) eqn:H6; cbn [bind_outcome];
    [| eexists; split; [reflexivity | eapply percentile_not_driver_error, H6]].
  destruct (mean_or_zero docs_examined) eqn:H7; cbn [bind_outcome];
    [| eexists; split; [reflexivity | eapply mean_or_zero_not_driver_error, H7]].
  destruct (mean_or_zero keys_examined) eqn:H8; cbn [bind_outcome];
    [| eexists; split; [reflexivity | eapply mean_or_zero_not_driver_error, H8]].
  destruct (mean_or_zero docs_returned) eqn:H9; cbn [bind_outcome];
    [| eexists; split; [reflexivity | eapply mean_or_zero_not_driver_error, H9]].
  eexists; split; reflexivity.
Qed.

(** Hence the body of the [try] never returns. *)
Lemma measurement_never_returns srv fsqrt fround database collection query index_hint
    iterations warmup_iterations sample_interval h r h' :
  measurement srv fsqrt fround database collection query index_hint iterations
    warmup_iterations sample_interval h <> (Return r, h').
Proof.
  unfold measurement, bind.
  destruct (_clear_plan_cache srv database collection h) as [[[]|e1] h1]; [| discriminate].
  destruct (_perform_warmup srv database collection query index_hint
              warmup_iterations h1) as [[[]|e2] h2]; [| discriminate].
  destruct (_perform_testing srv database collection query index_hint iterations
              sample_interval h2) as [[[[[ts de] ke] dr]|e3] h3]; [| discriminate].
  unfold lift.
  destruct (calculate_results_raises fsqrt fround query index_hint iterations
              warmup_iterations sample_interval ts de ke dr) as [e [He _]].
  rewrite He. discriminate.
Qed.

(** C2: a run on which every request succeeds (one timed iteration, three
    documents returned) does not return a [TestResult] with
    [avg_docs_returned]: the dataclass has no such field, and the call that
    passes it raises [TypeError], which the harness does not catch. *)
Theorem harness_success_raises_TypeError :
  test_index_performance healthy_server (fun x => x) (fun x => x) "shop" "events"
    [("filter", PDict [])] [] 1 0 1 []
  = (Raise (TypeError
              "TestResult.__init__() got an unexpected keyword argument 'avg_docs_returned'"),
     [ CallExplain "shop" "events" (find (PDict []) None);
       CallFind "shop" "events" (find (PDict []) None);
       CallAdminPlanCacheClear "shop.events";
       CallBuildInfo ]).
Proof. vm_compute. reflexivity. Qed.

(** C1, as stated, fails: a query without a filter makes the harness raise
    [KeyError] to its caller. *)
Lemma harness_raises_KeyError :
  fst (test_index_performance healthy_server (fun x => x) (fun x => x) "shop" "events"
         [("sort", PDict [("at", PInt 1)])] [] 10 1 1 [])
  = Raise (KeyError "filter").
Proof. vm_compute. reflexivity. Qed.

(** C1 (amended): the harness never raises an error of the driver to its
    caller: whenever the measurement stops on a [PyMongoError], the harness
    returns the zeroed result that carries its message.  Exceptions of other
    types are not intercepted. *)
Theorem harness_captures_driver_errors srv fsqrt fround database collection query
    index_hint iterations warmup_iterations sample_interval (h : history) :
  (forall e,
     fst (test_index_performance srv fsqrt fround database collection query index_hint
            iterations warmup_iterations sample_interval h) = Raise e ->
     is_PyMongoError e = false)
  /\ (forall e h',
        measurement srv fsqrt fround database collection query index_hint iterations
          warmup_iterations sample_interval h = (Raise e, h') ->
        is_PyMongoError e = true ->
        test_index_performance srv fsqrt fround database collection query index_hint
          iterations warmup_iterations sample_interval h
        = (Return (failed_result query index_hint iterations warmup_iterations
                     sample_interval (exn_str e)), h')).
Proof.
  unfold test_index_performance, try_except. split.
  - intros e.
    destruct (measurement srv fsqrt fround database collection query index_hint iterations
                warmup_iterations sample_interval h) as [[r0|e0] h1]; cbn [fst].
    + discriminate.
    + destruct (is_PyMongoError e0) eqn:He0.
      * unfold lift. rewrite failure_kwargs_accepted. cbn [fst]. discriminate.
      * cbn [fst]. intros H. inversion H; subst. exact He0.
  - intros e h' Hm He. rewrite Hm, He. unfold lift.
    rewrite failure_kwargs_accepted. reflexivity.
Qed.

Lemma harness_captures_driver_errors_witness :
  test_index_performance (fails_on_find 2) (fun x => x) (fun x => x) "shop" "events"
    [("filter", PDict [])] [] 10 0 0 []
  = (Return (failed_result [("filter", PDict [])] [] 10 0 0 "cursor killed"),
     [ CallFind "shop" "events" (find (PDict []) None);
       CallFind "shop" "events" (find (PDict []) None);
       CallFind "shop" "events" (find (PDict []) None);
       CallAdminPlanCacheClear "shop.events";
       CallBuildInfo ]).
Proof.
  apply (proj2 (harness_captures_driver_errors (fails_on_find 2) (fun x => x) (fun x => x)
                  "shop" "events" [("filter", PDict [])] [] 10 0 0 [])
           (PyMongoError "cursor killed")).
  - vm_compute. reflexivity.
  - reflexivity.
Defined.

(** ** Traces of requests *)

Lemma emits_ret {A} P (a : A) : emits P (ret a).
Proof. intros h. exists []. split; [reflexivity | constructor]. Qed.

Lemma emits_lift {A} P (o : outcome A) : emits P (lift o).
Proof. intros h. exists []. split; [reflexivity | constructor]. Qed.

Lemma emits_request {A} (P : db_call -> Prop) c (answer : history -> outcome A) :
  P c -> emits P (request c answer).
Proof. intros Hc h. exists [c]. split; [reflexivity | repeat constructor; exact Hc]. Qed.

Lemma emits_bind {A B} P (m : M A) (k : A -> M B) :
  emits P m ->
  (forall a h h', m h = (Return a, h') -> emits P (k a)) ->
  emits P (bind m k).
Proof.
  intros Hm Hk h. unfold bind. destruct (Hm h) as [e1 [E1 F1]].
  destruct (m h) as [[a|e] h1] eqn:Hmh; cbn [snd] in E1; subst h1.
  - destruct (Hk a h _ Hmh (e1 ++ h)) as [e2 [E2 F2]].
    exists (e2 ++ e1). rewrite E2, app_assoc. split; [reflexivity |].
    apply Forall_app; split; assumption.
  - exists e1. split; [reflexivity | assumption].
Qed.

Lemma emits_for_each {A S} P (body : A -> S -> M S) l :
  (forall x s, emits P (body x s)) -> forall s, emits P (for_each body l s).
Proof.
  intros Hb. induction l as [| x l IH]; intros s; cbn [for_each].
  - apply emits_ret.
  - apply emits_bind; [apply Hb | intros; apply IH].
Qed.

Lemma emits_try_except {A} P (m : M A) catches handler :
  emits P m -> (forall e, emits P (handler e)) -> emits P (try_except m catches handler).
Proof.
  intros Hm Hh h. unfold try_except. destruct (Hm h) as [e1 [E1 F1]].
  destruct (m h) as [[a|e] h1]; cbn [snd] in E1; subst h1.
  - exists e1. split; [reflexivity | assumption].
  - destruct (catches e).
    + destruct (Hh e (e1 ++ h)) as [e2 [E2 F2]]. exists (e2 ++ e1).
      rewrite E2, app_assoc. split; [reflexivity |].
      apply Forall_app; split; assumption.
    + exists e1. split; [reflexivity | assumption].
Qed.

(** A loop invariant on the accumulator of [for_each]. *)
Lemma for_each_invariant {W A S} (I : S -> Prop) (body : A -> S -> State W S) l :
  (forall x s w s' w', I s -> body x s w = (Return s', w') -> I s') ->
  forall s w s' w', I s -> for_each body l s w = (Return s', w') -> I s'.
Proof.
  intros Hb. induction l as [| x l IH]; intros s w s' w' Hs; cbn [for_each].
  - unfold ret. intros H. inversion H; subst. exact Hs.
  - unfold bind. destruct (body x s w) as [[s1|e] w1] eqn:Hbody; [| discriminate].
    intros H. eapply IH; [| exact H]. eapply Hb; eassumption.
Qed.

Lemma emits_read_clock P srv : emits P (read_clock srv).
Proof. intros h. exists []. split; [reflexivity | constructor]. Qed.

Lemma lift_returns {A} (o : outcome A) (a : A) (h h' : history) :
  lift o h = (Return a, h') -> o = Return a.
Proof. unfold lift. intros H. inversion H. reflexivity. Qed.

(** ** The composed query *)

Lemma build_query_cursor_rule query index_hint c :
  _build_query_cursor query index_hint = Return c <->
  exists flt, dict_get "filter" query = Some flt /\ c = composed_query flt query index_hint.
Proof.
  unfold _build_query_cursor, dict_item, composed_query, apply_if_truthy.
  destruct (dict_get "filter" query) as [flt |].
  - split.
    + intros H. exists flt. split; [reflexivity |]. inversion H; subst; clear H.
      destruct (dict_get_none "project" query);
        destruct (truthy (dict_get_none "sort" query));
        destruct (truthy (dict_get_none "skip" query));
        destruct (truthy (dict_get_none "limit" query));
        destruct index_hint; reflexivity.
    + intros [flt' [E ->]]. inversion E; subst. f_equal.
      destruct (dict_get_none "project" query);
        destruct (truthy (dict_get_none "sort" query));
        destruct (truthy (dict_get_none "skip" query));
        destruct (truthy (dict_get_none "limit" query));
        destruct index_hint; reflexivity.
  - split; [discriminate | intros [flt [E _]]; discriminate].
Qed.

Lemma warmup_limit_reset query index_hint c :
  _build_query_cursor query index_hint = Return c ->
  (cursor_limit (PInt 0) c = c <-> truthy (dict_get_none "limit" query) = false).
Proof.
  intros H. apply build_query_cursor_rule in H. destruct H as [flt [_ ->]].
  unfold cursor_limit, composed_query; cbn.
  destruct (truthy (dict_get_none "limit" query)) eqn:Ht.
  - split; [| discriminate]. intros E. inversion E as [E0].
    rewrite <- E0 in Ht. discriminate.
  - split; reflexivity.
Qed.

Section PhaseTraces.

Variable srv : Server.
Variables database collection : string.
Variable query : pydict.
Variable index_hint : IndexHint.

Lemma warmup_emits (P : db_call -> Prop) warmup_iterations :
  (forall c, _build_query_cursor query index_hint = Return c ->
             P (CallFind database collection (cursor_limit (PInt 0) c))) ->
  emits P (_perform_warmup srv database collection query index_hint warmup_iterations).
Proof.
  intros HP. unfold _perform_warmup. apply emits_for_each. intros _ _.
  apply emits_bind; [apply emits_lift |]. intros c h h' Hc%lift_returns.
  apply emits_bind; [| intros; apply emits_ret].
  apply emits_request. apply HP, Hc.
Qed.

Lemma collect_execution_stats_emits (P : db_call -> Prop) de ke :
  (forall c, _build_query_cursor query index_hint = Return c ->
             P (CallExplain database collection c)) ->
  emits P (_collect_execution_stats srv database collection query index_hint de ke).
Proof.
  intros HP. unfold _collect_execution_stats.
  apply emits_bind; [apply emits_lift |]. intros c h h' Hc%lift_returns.
  apply emits_bind; [| intros; apply emits_ret].
  apply emits_request. apply HP, Hc.
Qed.

Lemma testing_iteration_emits (P : db_call -> Prop) iterations sample_interval i acc :
  (forall c, _build_query_cursor query index_hint = Return c ->
             P (CallFind database collection c)) ->
  (0 < sample_interval ->
   forall c, _build_query_cursor query index_hint = Return c ->
             P (CallExplain database collection c)) ->
  emits P (testing_iteration srv database collection query index_hint iterations
             sample_interval i acc).
Proof.
  intros HF HE. unfold testing_iteration. destruct acc as [[[ts de] ke] dr].
  apply emits_bind; [apply emits_read_clock |]. intros t0 _ _ _.
  apply emits_bind; [apply emits_lift |]. intros c h h' Hc%lift_returns.
  apply emits_bind; [apply emits_request, HF, Hc |]. intros n _ _ _.
  apply emits_bind; [apply emits_read_clock |]. intros t1 _ _ _.
  destruct (0 <? sample_interval) eqn:Hsi; cbn [andb].
  - destruct ((i mod sample_interval =? 0) || (i =? iterations - 1)).
    + apply emits_bind; [| intros; apply emits_ret].
      apply collect_execution_stats_emits. apply HE. apply Z.ltb_lt, Hsi.
    + apply emits_ret.
  - apply emits_ret.
Qed.

Lemma testing_emits (P : db_call -> Prop) iterations sample_interval :
  (forall c, _build_query_cursor query index_hint = Return c ->
             P (CallFind database collection c)) ->
  (0 < sample_interval ->
   forall c, _build_query_cursor query index_hint = Return c ->
             P (CallExplain database collection c)) ->
  emits P (_perform_testing srv database collection query index_hint iterations
             sample_interval).
Proof.
  intros HF HE. unfold _perform_testing. apply emits_for_each. intros i acc.
  apply testing_iteration_emits; assumption.
Qed.

Lemma clear_plan_cache_emits (P : db_call -> Prop) :
  (forall c, is_query_call c = false -> P c) ->
  emits P (_clear_plan_cache srv database collection).
Proof.
  intros HP. unfold _clear_plan_cache.
  apply emits_bind; [apply emits_request, HP; reflexivity |]. intros bi _ _ _.
  apply emits_try_except; [| intros; apply emits_ret].
  apply emits_bind; [apply emits_lift |]. intros v _ _ _.
  apply emits_bind; [apply emits_lift |]. intros t _ _ _.
  destruct (tuple_ge v t); apply emits_request, HP; reflexivity.
Qed.

End PhaseTraces.

(** C7, as stated, fails: for a query with a limit, the query of the
    warm-up is not the query that is timed and explained, because the
    warm-up applies [.limit(0)] on top of the composed query. *)
Lemma warmup_query_differs :
  let c := cursor_limit (PInt 5) (find (PDict []) None) in
  snd (test_index_performance healthy_server (fun x => x) (fun x => x) "shop" "events"
         [("filter", PDict []); ("limit", PInt 5)] [] 1 1 1 [])
  = [ CallExplain "shop" "events" c;
      CallFind "shop" "events" c;
      CallFind "shop" "events" (cursor_limit (PInt 0) c);
      CallAdminPlanCacheClear "shop.events";
      CallBuildInfo ]
  /\ cursor_limit (PInt 0) c <> c.
Proof. split; [vm_compute; reflexivity | discriminate]. Qed.

(** C7 (amended): the composed query follows the query-builder rule; every
    query the timed phase executes and every query it explains is that
    composed query; every query the warm-up executes is that composed query
    with its limit reset to 0, which is the same query exactly when the
    query specification has no truthy limit. *)
Theorem composed_query_shared srv database collection query index_hint c :
  _build_query_cursor query index_hint = Return c ->
  (exists flt,
      dict_get "filter" query = Some flt /\ c = composed_query flt query index_hint)
  /\ (forall warmup_iterations,
        emits (fun call => call = CallFind database collection (cursor_limit (PInt 0) c))
          (_perform_warmup srv database collection query index_hint warmup_iterations))
  /\ (forall iterations sample_interval,
        emits (fun call => call = CallFind database collection c
                           \/ call = CallExplain database collection c)
          (_perform_testing srv database collection query index_hint iterations
             sample_interval))
  /\ (cursor_limit (PInt 0) c = c <-> truthy (dict_get_none "limit" query) = false).
Proof.
  intros Hb. split; [apply build_query_cursor_rule, Hb |]. split; [| split].
  - intros n. apply warmup_emits. intros c' Hc'. congruence.
  - intros it si. apply testing_emits.
    + intros c' Hc'. left. congruence.
    + intros _ c' Hc'. right. congruence.
  - apply warmup_limit_reset with (index_hint := index_hint), Hb.
Qed.

Lemma composed_query_shared_witness :
  let q := [("filter", PDict [("user", PInt 7)]); ("sort", PDict [("at", PInt 1)])] in
  let c := cursor_hint [("user", 1)]
             (cursor_sort (PDict [("at", PInt 1)])
                (find (PDict [("user", PInt 7)]) None)) in
  emits (fun call => call = CallFind "shop" "events" c
                     \/ call = CallExplain "shop" "events" c)
    (_perform_testing healthy_server "shop" "events" q [("user", 1)] 10 3).
Proof.
  intros q c.
  apply (proj1 (proj2 (proj2
           (composed_query_shared healthy_server "shop" "events" q [("user", 1)]
              c eq_refl)))).
Defined.

(** ** Plan sampling *)

(** Every result the harness returns is the zeroed result of the [except]
    branch: a run that completes its measurements ends in the [TypeError]
    of the [TestResult(...)] call. *)
Lemma harness_result_is_failed_result srv fsqrt fround database collection query index_hint
    iterations warmup_iterations sample_interval h r h' :
  test_index_performance srv fsqrt fround database collection query index_hint
    iterations warmup_iterations sample_interval h = (Return r, h') ->
  exists msg,
    r = failed_result query index_hint iterations warmup_iterations sample_interval msg.
Proof.
  unfold test_index_performance, try_except.
  destruct (measurement srv fsqrt fround database collection query index_hint iterations
              warmup_iterations sample_interval h) as [[r0|e] h1] eqn:Hm.
  - exfalso. eapply measurement_never_returns, Hm.
  - destruct (is_PyMongoError e); [| discriminate].
    unfold lift. rewrite failure_kwargs_accepted. intros H. inversion H; subst.
    eexists. reflexivity.
Qed.

(** With sampling disabled an iteration leaves both sample lists as they
    are. *)
Lemma testing_iteration_unsampled srv database collection query index_hint
    iterations sample_interval i ts de ke dr h ts' de' ke' dr' h' :
  sample_interval <= 0 ->
  testing_iteration srv database collection query index_hint iterations
    sample_interval i (ts, de, ke, dr) h = (Return (ts', de', ke', dr'), h') ->
  de' = de /\ ke' = ke.
Proof.
  intros Hsi. unfold testing_iteration, bind, read_clock, lift, request.
  destruct (_build_query_cursor query index_hint) as [c|e]; [| discriminate].
  destruct (srv_find srv h database collection c) as [n|e]; [| discriminate].
  replace (0 <? sample_interval) with false by (symmetry; apply Z.ltb_ge, Hsi).
  cbn [andb]. unfold ret. intros H. inversion H; subst. split; reflexivity.
Qed.

Lemma testing_unsampled srv database collection query index_hint iterations
    sample_interval h ts de ke dr h' :
  sample_interval <= 0 ->
  _perform_testing srv database collection query index_hint iterations
    sample_interval h = (Return (ts, de, ke, dr), h') ->
  de = [] /\ ke = [].
Proof.
  intros Hsi H. unfold _perform_testing in H.
  apply (for_each_invariant
           (fun s : samples => snd (fst (fst s)) = [] /\ snd (fst s) = [])) in H;
    [exact H | | split; reflexivity].
  intros x [[[ts0 de0] ke0] dr0] w [[[ts1 de1] ke1] dr1] w' [Hd Hk] Hbody.
  cbn [fst snd] in *. subst.
  eapply testing_iteration_unsampled; eassumption.
Qed.

Lemma calculate_kwargs_unsampled fsqrt fround query index_hint iteration warmup_iteration
    sample_interval times docs_returned kw :
  calculate_kwargs fsqrt fround query index_hint iteration warmup_iteration sample_interval
    times [] [] docs_returned = Return kw ->
  dict_get "avg_docs_examined" kw = Some (FFloat 0)
  /\ dict_get "avg_keys_examined" kw = Some (FFloat 0).
Proof.
  unfold calculate_kwargs, bind_outcome.
  destruct (mean (sorted times)); [| discriminate].
  destruct (list_item (sorted times) 0); [| discriminate].
  destruct (list_item (sorted times) (-1)); [| discriminate].
  destruct (if 1 <? Z.of_nat (length (sorted times))
            then stdev fsqrt (sorted times) else Return 0%Q); [| discriminate].
  destruct (percentile fround 94 (sorted times)); [| discriminate].
  destruct (percentile fround 98 (sorted times)); [| discriminate].
  cbn [mean_or_zero].
  destruct (mean_or_zero docs_returned); [| discriminate].
  intros H. inversion H; subst. split; reflexivity.
Qed.

(** With sampling disabled no request of the harness is an explain. *)
Lemma unsampled_harness_emits srv fsqrt fround database collection query index_hint
    iterations warmup_iterations sample_interval :
  sample_interval <= 0 ->
  emits (fun c => is_explain c = false)
    (test_index_performance srv fsqrt fround database collection query index_hint
       iterations warmup_iterations sample_interval).
Proof.
  intros Hsi. unfold test_index_performance.
  apply emits_try_except; [| intros; apply emits_lift].
  unfold measurement.
  apply emits_bind.
  { apply clear_plan_cache_emits. intros [] Hc; try reflexivity; discriminate. }
  intros _ _ _ _. apply emits_bind.
  { apply warmup_emits. reflexivity. }
  intros _ _ _ _. apply emits_bind.
  { apply testing_emits; [reflexivity | lia]. }
  intros [[[ts de] ke] dr] _ _ _. apply emits_lift.
Qed.

(** C5: three timed iterations with [sample_interval = 0] on a server that
    answers every request.  No explain is requested, as the claim says; but
    the run returns no result in which the two averages could be 0: the
    [TestResult(...)] call of the reducer raises [TypeError], as in C2. *)
Theorem unsampled_run_returns_no_result :
  test_index_performance healthy_server (fun x => x) (fun x => x) "shop" "events"
    [("filter", PDict [])] [] 3 0 0 []
  = (Raise (TypeError
              "TestResult.__init__() got an unexpected keyword argument 'avg_docs_returned'"),
     [ CallFind "shop" "events" (find (PDict []) None);
       CallFind "shop" "events" (find (PDict []) None);
       CallFind "shop" "events" (find (PDict []) None);
       CallAdminPlanCacheClear "shop.events";
       CallBuildInfo ]).
Proof. vm_compute. reflexivity. Qed.

(** ** Failures during the warm-up and the timed phase *)

Section FailStop.

Variable srv : Server.

Lemma clean_app h e1 e2 : clean srv h e1 -> clean srv (e1 ++ h) e2 -> clean srv h (e2 ++ e1).
Proof.
  intros H1. induction e2 as [| c e2 IH]; cbn [clean app]; [intros; exact H1 |].
  intros [Hc H2]. split; [| apply IH, H2]. rewrite <- app_assoc. exact Hc.
Qed.

Lemma clean_middle h later c earlier :
  clean srv h (later ++ c :: earlier) -> is_query_call c = true ->
  call_failure srv (earlier ++ h) c = None.
Proof.
  induction later as [| x later IH]; cbn [clean app].
  - intros [Hc _] Hq. apply Hc, Hq.
  - intros [_ H]. apply IH, H.
Qed.

Lemma failstop_ret {A} (a : A) : failstop srv (ret a).
Proof. intros h. exists []. split; [reflexivity | left; exact I]. Qed.

Lemma failstop_lift {A} (o : outcome A) : failstop srv (lift o).
Proof. intros h. exists []. split; [reflexivity | left; exact I]. Qed.

Lemma failstop_read_clock : failstop srv (read_clock srv).
Proof. intros h. exists []. split; [reflexivity | left; exact I]. Qed.

Lemma failstop_bind {A B} (m : M A) (k : A -> M B) :
  failstop srv m -> (forall a, failstop srv (k a)) -> failstop srv (bind m k).
Proof.
  intros Hm Hk h. unfold bind. destruct (Hm h) as [e1 [E1 S1]].
  destruct (m h) as [[a|e] h1]; cbn [fst snd raised] in *; subst h1.
  - assert (C1 : clean srv h e1).
    { destruct S1 as [C | [c [ea [e [_ [_ [_ [R _]]]]]]]]; [exact C | discriminate]. }
    destruct (Hk a (e1 ++ h)) as [e2 [E2 S2]].
    exists (e2 ++ e1). rewrite E2, app_assoc. split; [reflexivity |].
    destruct S2 as [C2 | [c [ea [e [-> [Hq [Hf [R C2]]]]]]]].
    + left. apply clean_app; assumption.
    + right. exists c, (ea ++ e1), e. rewrite <- app_assoc.
      repeat split; try assumption. apply clean_app; assumption.
  - exists e1. split; [reflexivity | exact S1].
Qed.

Lemma failstop_for_each {A S} (body : A -> S -> M S) l :
  (forall x s, failstop srv (body x s)) -> forall s, failstop srv (for_each body l s).
Proof.
  intros Hb. induction l as [| x l IH]; intros s; cbn [for_each].
  - apply failstop_ret.
  - apply failstop_bind; [apply Hb | apply IH].
Qed.

Lemma failstop_find database collection c :
  failstop srv (request (CallFind database collection c)
              (fun h => srv_find srv h database collection c)).
Proof.
  intros h. exists [CallFind database collection c]. split; [reflexivity |].
  unfold request; cbn [fst].
  destruct (srv_find srv h database collection c) as [n|e] eqn:Hf; cbn [raised].
  - left. cbn. rewrite Hf. repeat split.
  - right. exists (CallFind database collection c), [], e. cbn. rewrite Hf.
    repeat split.
Qed.

Lemma failstop_explain database collection c :
  failstop srv (request (CallExplain database collection c)
              (fun h => srv_explain srv h database collection c)).
Proof.
  intros h. exists [CallExplain database collection c]. split; [reflexivity |].
  unfold request; cbn [fst].
  destruct (srv_explain srv h database collection c) as [n|e] eqn:Hf; cbn [raised].
  - left. cbn. rewrite Hf. repeat split.
  - right. exists (CallExplain database collection c), [], e. cbn. rewrite Hf.
    repeat split.
Qed.

(** A computation that issues no query is fail-stop. *)
Lemma failstop_no_query {A} (m : M A) :
  emits (fun c => is_query_call c = false) m -> failstop srv m.
Proof.
  intros Hm h. destruct (Hm h) as [ext [E F]]. exists ext. split; [exact E |].
  left. clear E. induction F as [| c ext Hc F IH]; cbn [clean]; [exact I |].
  split; [| exact IH]. rewrite Hc. discriminate.
Qed.

Lemma failstop_measurement fsqrt fround database collection query index_hint
    iterations warmup_iterations sample_interval :
  failstop srv (measurement srv fsqrt fround database collection query index_hint
              iterations warmup_iterations sample_interval).
Proof.
  unfold measurement.
  apply failstop_bind.
  { apply failstop_no_query, clear_plan_cache_emits. intros c Hc; exact Hc. }
  intros _. apply failstop_bind.
  { unfold _perform_warmup. apply failstop_for_each. intros _ _.
    apply failstop_bind; [apply failstop_lift |]. intros c.
    apply failstop_bind; [apply failstop_find | intros; apply failstop_ret]. }
  intros _. apply failstop_bind.
  { unfold _perform_testing. apply failstop_for_each. intros i [[[ts de] ke] dr].
    unfold testing_iteration.
    apply failstop_bind; [apply failstop_read_clock |]. intros t0.
    apply failstop_bind; [apply failstop_lift |]. intros c.
    apply failstop_bind; [apply failstop_find |]. intros n.
    apply failstop_bind; [apply failstop_read_clock |]. intros t1.
    destruct ((0 <? sample_interval)
              && ((i mod sample_interval =? 0) || (i =? iterations - 1)));
      [| apply failstop_ret].
    apply failstop_bind; [| intros; apply failstop_ret].
    unfold _collect_execution_stats.
    apply failstop_bind; [apply failstop_lift |]. intros c'.
    apply failstop_bind; [apply failstop_explain | intros; apply failstop_ret]. }
  intros [[[ts de] ke] dr]. apply failstop_lift.
Qed.

End FailStop.

(** C4, as stated, fails: a query whose filter is a string is refused with
    [TypeError] in the first timed iteration, and the harness raises it to
    its caller instead of returning a result. *)
Lemma query_failure_raised_to_caller :
  fst (test_index_performance validating_server (fun x => x) (fun x => x)
         "shop" "events" [("filter", PStr "status")] [] 10 0 1 [])
  = Raise (TypeError "filter must be an instance of dict")
  /\ call_failure validating_server
       [CallAdminPlanCacheClear "shop.events"; CallBuildInfo]
       (CallFind "shop" "events" (find (PStr "status") None))
     = Some (TypeError "filter must be an instance of dict").
Proof. split; vm_compute; reflexivity. Qed.

(** C4 (amended): in every run of the harness, a query execution (of the
    warm-up, of the timed phase, or an explain) that fails is the last
    request of the run: no further iteration is executed.  When the failure
    is an error of the driver ([PyMongoError]) the harness returns, without
    raising, the result whose error field is the message of the failure and
    whose numeric fields are all 0; a failure of any other type is raised
    to the caller. *)
Theorem query_failure_aborts_run srv fsqrt fround database collection query index_hint
    iterations warmup_iterations sample_interval (h : history)
    out final later c earlier e :
  test_index_performance srv fsqrt fround database collection query index_hint
    iterations warmup_iterations sample_interval h = (out, final) ->
  final = later ++ c :: earlier ++ h ->
  is_query_call c = true ->
  call_failure srv (earlier ++ h) c = Some e ->
  later = []
  /\ out = if is_PyMongoError e
           then Return (failed_result query index_hint iterations warmup_iterations
                          sample_interval (exn_str e))
           else Raise e.
Proof.
  intros Hrun Hfinal Hq Hf.
  destruct (failstop_measurement srv fsqrt fround database collection query index_hint
              iterations warmup_iterations sample_interval h) as [ext [E S]].
  unfold test_index_performance, try_except in Hrun.
  destruct (measurement srv fsqrt fround database collection query index_hint iterations
              warmup_iterations sample_interval h) as [[r|e0] h1] eqn:Hm;
    cbn [fst snd raised] in *; subst h1.
  - exfalso. eapply measurement_never_returns, Hm.
  - assert (Hfin : final = ext ++ h).
    { destruct (is_PyMongoError e0); unfold lift in Hrun; inversion Hrun; reflexivity. }
    assert (Hext : ext = later ++ c :: earlier).
    { apply (app_inv_tail h). rewrite <- Hfin, Hfinal, <- app_assoc. reflexivity. }
    destruct S as [C | [c' [ea [e' [Hx [Hq' [Hf' [R C]]]]]]]].
    + rewrite Hext in C. rewrite (clean_middle srv _ _ _ _ C Hq) in Hf. discriminate.
    + destruct later as [| x later].
      * cbn [app] in Hext. rewrite Hext in Hx. inversion Hx; subst c' ea.
        rewrite Hf in Hf'. inversion Hf'; subst e'. inversion R; subst e0.
        destruct (is_PyMongoError e).
        -- unfold lift in Hrun. rewrite failure_kwargs_accepted in Hrun.
           inversion Hrun. split; reflexivity.
        -- inversion Hrun. split; reflexivity.
      * exfalso. rewrite Hext in Hx. cbn [app] in Hx. inversion Hx; subst x ea.
        rewrite (clean_middle srv _ _ _ _ C Hq) in Hf. discriminate.
Qed.

Lemma query_failure_aborts_run_witness :
  let q := [("filter", PDict [])] in
  let f := CallFind "shop" "events" (find (PDict []) None) in
  test_index_performance (fails_on_find 2) (fun x => x) (fun x => x) "shop" "events"
    q [] 10 0 1 []
  = (Return (failed_result q [] 10 0 1 "cursor killed"),
     [f; CallExplain "shop" "events" (find (PDict []) None); f;
      CallExplain "shop" "events" (find (PDict []) None); f;
      CallAdminPlanCacheClear "shop.events"; CallBuildInfo])
  /\ (@nil db_call = []
      /\ Return (failed_result q [] 10 0 1 "cursor killed")
         = if is_PyMongoError (PyMongoError "cursor killed")
           then Return (failed_result q [] 10 0 1 (exn_str (PyMongoError "cursor killed")))
           else Raise (PyMongoError "cursor killed")).
Proof.
  intros q f. split; [vm_compute; reflexivity |].
  apply (query_failure_aborts_run (fails_on_find 2) (fun x => x) (fun x => x)
           "shop" "events" q [] 10 0 1 []
           (Return (failed_result q [] 10 0 1 "cursor killed"))
           [f; CallExplain "shop" "events" (find (PDict []) None); f;
            CallExplain "shop" "events" (find (PDict []) None); f;
            CallAdminPlanCacheClear "shop.events"; CallBuildInfo]
           [] f
           [CallExplain "shop" "events" (find (PDict []) None); f;
            CallExplain "shop" "events" (find (PDict []) None); f;
            CallAdminPlanCacheClear "shop.events"; CallBuildInfo]
           (PyMongoError "cursor killed")).
  - vm_compute. reflexivity.
  - reflexivity.
  - reflexivity.
  - reflexivity.
Defined.

(** ** Deduplication of hints *)

Lemma hint_eqb_eq (a b : IndexHint) : hint_eqb a b = true <-> a = b.
Proof.
  revert b. induction a as [| [k v] a IH]; intros [| [k' v'] b]; cbn [hint_eqb];
    try (split; [discriminate | discriminate]); [split; reflexivity |].
  rewrite !andb_true_iff, String.eqb_eq, Z.eqb_eq, IH. split.
  - intros [[-> ->] ->]. reflexivity.
  - intros H. inversion H. repeat split.
Qed.

Lemma tested_hint_In (x : IndexHint) tested :
  existsb (hint_eqb x) tested = true <-> In x tested.
Proof.
  rewrite existsb_exists. split.
  - intros [t [Ht E]]. apply hint_eqb_eq in E. subst. exact Ht.
  - intros H. exists x. split; [exact H | apply hint_eqb_eq; reflexivity].
Qed.

(** A hint in the set of tested hints is not handed to the harness again,
    and it stays in the set. *)
Lemma tested_hint_not_invoked W harness args q x rest :
  forall acc w log0 out w' log,
    In x (snd acc) ->
    for_each (test_hint (W * list IndexHint) (logged harness) args q) rest acc (w, log0)
    = (out, (w', log)) ->
    exists ext, log = ext ++ log0 /\ ~ In x ext.
Proof.
  induction rest as [| y rest IH]; intros [results tested] w log0 out w' log Hx;
    cbn [for_each snd].
  - unfold ret. intros H. inversion H; subst. exists []. split; [reflexivity | intros []].
  - unfold bind at 1. unfold test_hint at 1.
    destruct (existsb (hint_eqb y) tested) eqn:Hy.
    + unfold ret at 1. apply IH. exact Hx.
    + unfold bind, lift.
      destruct (as_str (TestQuery.database q)) as [d|e];
        [| intros H; inversion H; subst; exists []; split; [reflexivity | intros []]].
      destruct (as_str (TestQuery.collection q)) as [c|e];
        [| intros H; inversion H; subst; exists []; split; [reflexivity | intros []]].
      destruct (as_pydict (TestQuery.query q)) as [qd|e];
        [| intros H; inversion H; subst; exists []; split; [reflexivity | intros []]].
      assert (Hyx : y <> x).
      { intros ->. apply tested_hint_In in Hx. cbn [snd] in Hx. congruence. }
      unfold logged at 1. cbn [fst snd].
      destruct (harness d c qd y (arg_iterations args) (arg_warmup args)
                  (arg_sample_interval args) w) as [[r|e] w1].
      * destruct (error r); unfold ret at 1; intros H;
          eapply IH in H; try (cbn [snd]; first [exact Hx | right; exact Hx]);
          destruct H as [ext [-> Hn]]; exists (ext ++ [y]);
          rewrite <- app_assoc; (split; [reflexivity |]);
          intros Hin; apply in_app_or in Hin; destruct Hin as [Hin | [Hin | []]];
          [apply Hn, Hin | apply Hyx, Hin | apply Hn, Hin | apply Hyx, Hin].
      * intros H. inversion H; subst. exists [y]. split; [reflexivity |].
        intros [Hin | []]. apply Hyx, Hin.
Qed.

(** C6, as stated, fails: two hints with the same pairs in a different key
    order are both handed to the harness, the second after the first has
    been tested successfully. *)
Lemma reordered_hint_is_tested_again :
  let h1 := [("user", 1); ("at", -1)] in
  let h2 := [("at", -1); ("user", 1)] in
  let q := TestQuery.mk (PStr "by_user") (PDict [("filter", PDict [])])
             (PList []) (PStr "shop") (PStr "events") in
  Permutation h1 h2
  /\ test_hints (unit * list IndexHint) (logged (succeeding_harness unit))
       default_args q [h1; h2] (tt, [])
     = (Return ([ mkTestResult [("filter", PDict [])] h1 1000 10 1 0 0 0 0 0 0 0 0 None;
                  mkTestResult [("filter", PDict [])] h2 1000 10 1 0 0 0 0 0 0 0 0 None ],
                [h2; h1]),
        (tt, [h2; h1])).
Proof. split; [apply perm_swap | reflexivity]. Qed.

(** C6 (amended): hint-level deduplication is keyed on the sequence of
    (key, value) pairs in key order: two hints are the same for it exactly
    when they list the same pairs in the same order; and once the harness
    has returned an error-free result for a hint not yet tested, the hint is
    handed to the harness exactly that once during the rest of the query's
    hints. *)
Theorem hint_tested_once W harness args q (x : IndexHint) rest results tested
    d c qd w r w1 out w2 log :
  existsb (hint_eqb x) tested = false ->
  as_str (TestQuery.database q) = Return d ->
  as_str (TestQuery.collection q) = Return c ->
  as_pydict (TestQuery.query q) = Return qd ->
  harness d c qd x (arg_iterations args) (arg_warmup args) (arg_sample_interval args) w
  = (Return r, w1) ->
  error r = None ->
  for_each (test_hint (W * list IndexHint) (logged harness) args q) (x :: rest)
    (results, tested) (w, []) = (out, (w2, log)) ->
  (forall y, hint_eqb x y = true <-> x = y)
  /\ exists ext, log = ext ++ [x] /\ ~ In x ext.
Proof.
  intros Hx Hd Hc Hq Hh Hr Hrun. split; [intros y; apply hint_eqb_eq |].
  revert Hrun. cbn [for_each]. unfold bind at 1. unfold test_hint at 1.
  rewrite Hx. unfold bind, lift. rewrite Hd, Hc, Hq.
  unfold logged at 1. cbn [fst snd]. rewrite Hh, Hr. unfold ret at 1.
  intros H. eapply tested_hint_not_invoked in H; [exact H |].
  cbn [snd]. left. reflexivity.
Qed.

(** ** The reducer: percentiles *)

Lemma sorted_length (l : list Q) : length (sorted l) = length l.
Proof. symmetry. apply Permutation_length, QSort.Permuted_sort. Qed.

Lemma sorted_In (l : list Q) x : In x (sorted l) <-> In x l.
Proof.
  split; apply Permutation_in;
    [apply Permutation_sym |]; apply QSort.Permuted_sort.
Qed.

Lemma sorted_StronglySorted (l : list Q) :
  StronglySorted (fun x y => x <= y)%Q (sorted l).
Proof.
  assert (H : StronglySorted (fun x y => is_true (QOrder.leb x y)) (sorted l)).
  { apply QSort.StronglySorted_sort. intros x y z. unfold is_true, QOrder.leb.
    rewrite !Qle_bool_iff. apply Qle_trans. }
  induction H as [| a l' Hs IH Ha]; constructor; [exact IH |].
  eapply Forall_impl; [| exact Ha]. intros y Hy. apply Qle_bool_iff, Hy.
Qed.

Lemma StronglySorted_nth_le (l : list Q) :
  StronglySorted (fun x y => x <= y)%Q l ->
  forall i k, (i <= k < length l)%nat -> (nth i l 0 <= nth k l 0)%Q.
Proof.
  induction 1 as [| a l Hs IH Ha]; intros i k Hik; cbn [length] in Hik; [lia |].
  destruct k as [| k].
  - assert (i = 0)%nat by lia. subst. apply Qle_refl.
  - destruct i as [| i]; cbn [nth].
    + rewrite Forall_forall in Ha. apply Ha, nth_In. lia.
    + apply IH. lia.
Qed.

Lemma sorted_nth_le (l : list Q) i k :
  (i <= k < length l)%nat -> (nth i (sorted l) 0 <= nth k (sorted l) 0)%Q.
Proof.
  intros H. apply StronglySorted_nth_le; [apply sorted_StronglySorted |].
  rewrite sorted_length. exact H.
Qed.

(** Every element of the data lies between the first and the last element
    of the sorted data. *)
Lemma sorted_bounds (l : list Q) x :
  In x l ->
  (nth 0 (sorted l) 0 <= x <= nth (length l - 1) (sorted l) 0)%Q.
Proof.
  intros Hx. apply sorted_In in Hx.
  destruct (In_nth _ _ 0%Q Hx) as [i [Hi <-]]. rewrite sorted_length in Hi.
  split; apply sorted_nth_le; lia.
Qed.

Lemma list_item_nth {A} (l : list A) (k : Z) (d : A) :
  0 <= k < Z.of_nat (length l) ->
  list_item l k = Return (nth (Z.to_nat k) l d).
Proof.
  intros Hk. unfold list_item.
  destruct (Z.ltb_spec k 0); [lia |].
  destruct (Z.ltb_spec k 0); [lia |].
  destruct (Z.leb_spec (Z.of_nat (length l)) k); [lia |]. cbn [orb].
  rewrite (nth_error_nth' l d) by lia. reflexivity.
Qed.

Lemma list_item_last {A} (l : list A) (d : A) :
  l <> [] -> list_item l (-1) = Return (nth (length l - 1) l d).
Proof.
  intros Hl. assert (0 < length l)%nat by (destruct l; [congruence | cbn; lia]).
  unfold list_item. change (-1 <? 0) with true. cbv iota.
  destruct (Z.ltb_spec (-1 + Z.of_nat (length l)) 0); [lia |].
  destruct (Z.leb_spec (Z.of_nat (length l)) (-1 + Z.of_nat (length l))); [lia |].
  cbn [orb]. replace (Z.to_nat (-1 + Z.of_nat (length l))) with (length l - 1)%nat by lia.
  rewrite (nth_error_nth' l d) by lia. reflexivity.
Qed.

(** Where the 95th and the 99th cut fall among [ld >= 5] sorted samples:
    the index, and the weight [delta] of the upper neighbour, which exceeds
    100 on small samples. *)
Lemma cut_index_95_99 (ld : Z) :
  5 <= ld ->
  let j95 := Z.min (95 * (ld + 1) / 100) (ld - 1) in
  let j99 := Z.min (99 * (ld + 1) / 100) (ld - 1) in
  let d95 := 95 * (ld + 1) - j95 * 100 in
  let d99 := 99 * (ld + 1) - j99 * 100 in
  cut_index ld 100 95 = j95 /\ cut_index ld 100 99 = j99
  /\ 1 <= j95 <= j99 /\ j99 <= ld - 1 /\ 0 <= d95 /\ 0 <= d99
  /\ (d95 <= 100 <-> 19 <= ld) /\ (d99 <= 100 <-> 99 <= ld).
Proof.
  intros Hld. unfold cut_index.
  destruct (Z.ltb_spec (95 * (ld + 1) / 100) 1);
    destruct (Z.ltb_spec (ld - 1) (95 * (ld + 1) / 100));
    destruct (Z.ltb_spec (99 * (ld + 1) / 100) 1);
    destruct (Z.ltb_spec (ld - 1) (99 * (ld + 1) / 100));
    cbv zeta; Z.div_mod_to_equations; lia.
Qed.

(** With five samples or more, entry [k] of the percentile table is the
    cut point number [k + 1] of the sorted samples. *)
Lemma percentile_cut_point fround (k : nat) (s : list Q) :
  (5 <= length s)%nat -> (k < 99)%nat ->
  percentile fround (Z.of_nat k) s
  = Return (cut_point fround (sorted s) 100 (Z.of_nat (S k))).
Proof.
  intros Hs Hk. unfold percentile.
  destruct (Z.leb_spec 5 (Z.of_nat (length s))); [| lia].
  unfold quantiles. change (100 <? 1) with false. cbv iota.
  rewrite sorted_length.
  destruct (Z.ltb_spec (Z.of_nat (length s)) 2); [lia |].
  cbn [bind_outcome]. change (Z.to_nat 100 - 1)%nat with 99%nat.
  rewrite (list_item_nth _ _ (cut_point fround (sorted s) 100 (Z.of_nat 0)))
    by (rewrite length_map, length_seq; lia).
  rewrite Nat2Z.id.
  rewrite (map_nth (fun i => cut_point fround (sorted s) 100 (Z.of_nat i)) (seq 1 99) 0%nat k).
  rewrite seq_nth by lia. reflexivity.
Qed.

Lemma Qlen_cons (x : Q) l : (Qlen (x :: l) == Qlen l + 1)%Q.
Proof.
  unfold Qlen. cbn [length]. rewrite Nat2Z.inj_succ, <- Z.add_1_r, inject_Z_plus.
  reflexivity.
Qed.

Lemma Qsum_bounds (a b : Q) l :
  Forall (fun x => a <= x <= b)%Q l ->
  (Qlen l * a <= Qsum l <= Qlen l * b)%Q.
Proof.
  induction 1 as [| x l Hx Hl IH].
  - unfold Qlen, Qsum. cbn. split; rewrite Qmult_0_l; apply Qle_refl.
  - rewrite Qlen_cons. unfold Qsum in *. cbn [fold_right].
    destruct IH as [IH1 IH2]. destruct Hx as [Hx1 Hx2].
    split.
    + rewrite Qmult_plus_distr_l, Qmult_1_l, Qplus_comm.
      apply Qplus_le_compat; assumption.
    + rewrite Qmult_plus_distr_l, Qmult_1_l, Qplus_comm.
      apply Qplus_le_compat; assumption.
Qed.

Lemma Qlen_pos (l : list Q) : l <> [] -> (0 < Qlen l)%Q.
Proof.
  intros Hl. unfold Qlen. change 0%Q with (inject_Z 0). rewrite <- Zlt_Qlt.
  destruct l; [congruence | cbn [length]; lia].
Qed.

Lemma mean_between (a b : Q) l :
  l <> [] -> Forall (fun x => a <= x <= b)%Q l ->
  exists m, mean l = Return m /\ (a <= m <= b)%Q.
Proof.
  intros Hl HF. exists (Qsum l / Qlen l)%Q. split.
  - destruct l; [congruence | reflexivity].
  - destruct (Qsum_bounds a b l HF) as [H1 H2]. pose proof (Qlen_pos l Hl) as Hp.
    split.
    + apply Qle_shift_div_l; [exact Hp |]. rewrite Qmult_comm. exact H1.
    + apply Qle_shift_div_r; [exact Hp |]. rewrite Qmult_comm. exact H2.
Qed.

Lemma mean_or_zero_returns xs : exists q, mean_or_zero xs = Return q.
Proof. destruct xs; eexists; reflexivity. Qed.

Lemma percentile_returns fround k s :
  (k < 99)%nat -> exists p, percentile fround (Z.of_nat k) s = Return p.
Proof.
  intros Hk. destruct (Nat.le_gt_cases 5 (length s)) as [H | H].
  - eexists. apply percentile_cut_point; assumption.
  - exists 0%Q. unfold percentile.
    destruct (Z.leb_spec 5 (Z.of_nat (length s))); [lia | reflexivity].
Qed.

(** The keyword arguments the reducer computes from a non-empty list of
    timings. *)
Lemma calculate_kwargs_values fsqrt fround query index_hint iteration warmup_iteration
    sample_interval times docs_examined keys_examined docs_returned :
  times <> [] ->
  exists avg mn mx sd p95 p99 de ke dr,
    calculate_kwargs fsqrt fround query index_hint iteration warmup_iteration
      sample_interval times docs_examined keys_examined docs_returned
    = Return [ ("query", FQuery query); ("hint", FHint index_hint);
               ("iteration", FInt iteration);
               ("warmup_iteration", FInt warmup_iteration);
               ("sample_interval", FInt sample_interval);
               ("avg_time", FFloat avg); ("min_time", FFloat mn);
               ("max_time", FFloat mx); ("stdev_time", FFloat sd);
               ("percentile_95", FFloat p95); ("percentile_99", FFloat p99);
               ("avg_docs_examined", FFloat de); ("avg_keys_examined", FFloat ke);
               ("avg_docs_returned", FFloat dr) ]
    /\ ((mn <= avg <= mx)%Q
        /\ In mn times /\ In mx times
        /\ (forall t, In t times -> (mn <= t <= mx)%Q))
    /\ percentile fround 94 (sorted times) = Return p95
    /\ percentile fround 98 (sorted times) = Return p99.
Proof.
  intros Hne. unfold calculate_kwargs.
  assert (Hs : sorted times <> []).
  { intros E. apply Hne. apply length_zero_iff_nil.
    rewrite <- sorted_length, E. reflexivity. }
  assert (Hlen : (0 < length (sorted times))%nat).
  { destruct (sorted times); [congruence | cbn; lia]. }
  set (mn := nth 0 (sorted times) 0%Q).
  set (mx := nth (length (sorted times) - 1) (sorted times) 0%Q).
  assert (Hb : forall t, In t times -> (mn <= t <= mx)%Q).
  { intros t Ht. unfold mn, mx. rewrite sorted_length. apply sorted_bounds, Ht. }
  destruct (mean_between mn mx (sorted times) Hs) as [avg [Hm Havg]].
  { apply Forall_forall. intros x Hx. apply Hb, sorted_In, Hx. }
  rewrite Hm. cbn [bind_outcome].
  rewrite (list_item_nth (sorted times) 0 0%Q) by lia. cbn [bind_outcome].
  rewrite (list_item_last (sorted times) 0%Q Hs). cbn [bind_outcome].
  assert (Hsd : exists sd,
             (if 1 <? Z.of_nat (length (sorted times))
              then stdev fsqrt (sorted times) else Return 0%Q) = Return sd).
  { destruct (Z.ltb_spec 1 (Z.of_nat (length (sorted times)))); [| eauto].
    unfold stdev. destruct (Z.ltb_spec (Z.of_nat (length (sorted times))) 2); [lia |].
    eauto. }
  destruct Hsd as [sd ->]. cbn [bind_outcome].
  destruct (percentile_returns fround 94 (sorted times)) as [p95 H95]; [lia |].
  destruct (percentile_returns fround 98 (sorted times)) as [p99 H99]; [lia |].
  change (Z.of_nat 94) with 94 in H95. change (Z.of_nat 98) with 98 in H99.
  rewrite H95, H99. cbn [bind_outcome].
  destruct (mean_or_zero_returns docs_examined) as [de ->].
  destruct (mean_or_zero_returns keys_examined) as [ke ->].
  destruct (mean_or_zero_returns docs_returned) as [dr ->]. cbn [bind_outcome].
  exists avg, mn, mx, sd, p95, p99, de, ke, dr.
  split; [reflexivity |]. split; [| split; reflexivity].
  split; [exact Havg |].
  split; [apply sorted_In, nth_In; lia |].
  split; [apply sorted_In, nth_In; lia | exact Hb].
Qed.

Lemma calculate_kwargs_returns fsqrt fround query index_hint iteration warmup_iteration
    sample_interval times docs_examined keys_examined docs_returned :
  times <> [] ->
  exists avg mn mx sd p95 p99 de ke dr,
    calculate_kwargs fsqrt fround query index_hint iteration warmup_iteration
      sample_interval times docs_examined keys_examined docs_returned
    = Return [ ("query", FQuery query); ("hint", FHint index_hint);
               ("iteration", FInt iteration);
               ("warmup_iteration", FInt warmup_iteration);
               ("sample_interval", FInt sample_interval);
               ("avg_time", FFloat avg); ("min_time", FFloat mn);
               ("max_time", FFloat mx); ("stdev_time", FFloat sd);
               ("percentile_95", FFloat p95); ("percentile_99", FFloat p99);
               ("avg_docs_examined", FFloat de); ("avg_keys_examined", FFloat ke);
               ("avg_docs_returned", FFloat dr) ]
    /\ (mn <= avg <= mx)%Q
    /\ In mn times /\ In mx times
    /\ (forall t, In t times -> (mn <= t <= mx)%Q).
Proof.
  intros Hne.
  destruct (calculate_kwargs_values fsqrt fround query index_hint iteration
              warmup_iteration sample_interval times docs_examined keys_examined
              docs_returned Hne)
    as (avg & mn & mx & sd & p95 & p99 & de & ke & dr & Hkw & Hrest & _).
  exists avg, mn, mx, sd, p95, p99, de, ke, dr. split; [exact Hkw | exact Hrest].
Qed.

(** C3, as stated, fails, in binary64 arithmetic.  Five equal samples 0.57
    give a 99th percentile below the 95th and below the samples themselves;
    the samples 1, 2, 3, 4, 5 give a 95th percentile above their maximum. *)
Lemma percentiles_leave_order_and_range :
  let d := round_double (57 # 100) in
  (exists kw p95 p99 mn,
     calculate_kwargs (fun x => x) round_double [("filter", PDict [])] [] 5 0 0
       [d; d; d; d; d] [] [] [3; 3; 3; 3; 3] = Return kw
     /\ dict_get "percentile_95" kw = Some (FFloat p95)
     /\ dict_get "percentile_99" kw = Some (FFloat p99)
     /\ dict_get "min_time" kw = Some (FFloat mn)
     /\ (p99 < p95)%Q /\ (p99 < mn)%Q)
  /\ (exists kw p95 mx,
        calculate_kwargs (fun x => x) round_double [("filter", PDict [])] [] 5 0 0
          [1; 2; 3; 4; 5]%Q [] [] [3; 3; 3; 3; 3] = Return kw
        /\ dict_get "percentile_95" kw = Some (FFloat p95)
        /\ dict_get "max_time" kw = Some (FFloat mx)
        /\ (mx < p95)%Q).
Proof.
  intros d. split.
  - eexists _, _, _, _. split; [vm_compute; reflexivity |].
    split; [reflexivity |]. split; [reflexivity |]. split; [reflexivity |].
    split; vm_compute; reflexivity.
  - eexists _, _, _. split; [vm_compute; reflexivity |].
    split; [reflexivity |]. split; [reflexivity |]. vm_compute; reflexivity.
Qed.

(** C3 (amended): what the reducer computes for the [percentile_95] and
    [percentile_99] arguments of its [TestResult(...)] call.  Without
    timings it raises.  With fewer than five timings both are exactly 0.
    With [n >= 5] timings they are the cut points 95 and 99 of
    [statistics.quantiles] on the sorted timings: the rounded interpolation
    between the neighbours at [j - 1] and [j], with [j] the smaller of
    [i * (n + 1) / 100] and [n - 1], and weight [delta] on the upper one.
    The weight exceeds 100, and that of the lower neighbour is negative,
    exactly when there are fewer than 19 timings (95th) or fewer than 99
    (99th): the formula then extrapolates beyond the largest timing.  No
    bound of the percentiles by the timings and no order between the two
    is part of the statement: rounding breaks both. *)
Theorem percentiles_of_times fsqrt fround query index_hint iteration warmup_iteration
    sample_interval times docs_examined keys_examined docs_returned :
  let reduced :=
    calculate_kwargs fsqrt fround query index_hint iteration warmup_iteration
      sample_interval times docs_examined keys_examined docs_returned in
  let n := Z.of_nat (length times) in
  let data := sorted (sorted times) in
  let j95 := Z.min (95 * (n + 1) / 100) (n - 1) in
  let j99 := Z.min (99 * (n + 1) / 100) (n - 1) in
  let d95 := 95 * (n + 1) - j95 * 100 in
  let d99 := 99 * (n + 1) - j99 * 100 in
  (times = [] ->
   reduced = Raise (StatisticsError "mean requires at least one data point"))
  /\ (times <> [] ->
      exists kw p95 p99,
        reduced = Return kw
        /\ dict_get "percentile_95" kw = Some (FFloat p95)
        /\ dict_get "percentile_99" kw = Some (FFloat p99)
        /\ ((length times < 5)%nat -> p95 = 0%Q /\ p99 = 0%Q)
        /\ ((5 <= length times)%nat ->
            Permutation times data
            /\ StronglySorted (fun x y => x <= y)%Q data
            /\ p95 = interpolate fround (nth (Z.to_nat (j95 - 1)) data 0%Q)
                       (nth (Z.to_nat j95) data 0%Q) d95
            /\ p99 = interpolate fround (nth (Z.to_nat (j99 - 1)) data 0%Q)
                       (nth (Z.to_nat j99) data 0%Q) d99
            /\ 1 <= j95 <= j99 /\ j99 <= n - 1 /\ 0 <= d95 /\ 0 <= d99
            /\ (d95 <= 100 <-> 19 <= n) /\ (d99 <= 100 <-> 99 <= n))).
Proof.
  intros reduced n data j95 j99 d95 d99. split.
  - intros E. unfold reduced. rewrite E. reflexivity.
  - intros Hne.
    destruct (calculate_kwargs_values fsqrt fround query index_hint iteration
                warmup_iteration sample_interval times docs_examined keys_examined
                docs_returned Hne)
      as (avg & mn & mx & sd & p95 & p99 & de & ke & dr & Hkw & _ & H95 & H99).
    eexists _, p95, p99. split; [exact Hkw |].
    split; [reflexivity |]. split; [reflexivity |]. split.
    + intros Hlt. unfold percentile in H95, H99. rewrite sorted_length in H95, H99.
      destruct (Z.leb_spec 5 (Z.of_nat (length times))); [lia |].
      inversion H95. inversion H99. split; reflexivity.
    + intros Hge.
      assert (Hs : (5 <= length (sorted times))%nat) by (rewrite sorted_length; exact Hge).
      pose proof (percentile_cut_point fround 94 (sorted times) Hs ltac:(lia)) as E95.
      pose proof (percentile_cut_point fround 98 (sorted times) Hs ltac:(lia)) as E99.
      change (Z.of_nat 94) with 94 in E95. change (Z.of_nat 95) with 95 in E95.
      change (Z.of_nat 98) with 98 in E99. change (Z.of_nat 99) with 99 in E99.
      rewrite E95 in H95. rewrite E99 in H99. inversion H95. inversion H99.
      assert (Hld : 5 <= n) by (unfold n; lia).
      destruct (cut_index_95_99 n Hld) as (I95 & I99 & Hrest).
      split.
      { unfold data. eapply Permutation_trans; apply QSort.Permuted_sort. }
      split; [apply sorted_StronglySorted |].
      split.
      { unfold cut_point. rewrite !sorted_length. fold n. rewrite I95. reflexivity. }
      split.
      { unfold cut_point. rewrite !sorted_length. fold n. rewrite I99. reflexivity. }
      exact Hrest.
Qed.

Lemma percentiles_of_times_witness :
  calculate_kwargs (fun x => x) round_double [("filter", PDict [])] [] 0 0 0
    [] [] [] []
  = Raise (StatisticsError "mean requires at least one data point")
  /\ exists kw p95 p99,
       calculate_kwargs (fun x => x) round_double [("filter", PDict [])] [] 5 0 0
         [5; 3; 1; 4; 2]%Q [] [] [3; 3; 3; 3; 3] = Return kw
       /\ dict_get "percentile_95" kw = Some (FFloat p95)
       /\ dict_get "percentile_99" kw = Some (FFloat p99)
       /\ ((length [5; 3; 1; 4; 2]%Q < 5)%nat -> p95 = 0%Q /\ p99 = 0%Q)
       /\ ((5 <= length [5; 3; 1; 4; 2]%Q)%nat ->
           Permutation [5; 3; 1; 4; 2]%Q (sorted (sorted [5; 3; 1; 4; 2]%Q))
           /\ StronglySorted (fun x y => x <= y)%Q (sorted (sorted [5; 3; 1; 4; 2]%Q))
           /\ p95 = interpolate round_double
                      (nth 3 (sorted (sorted [5; 3; 1; 4; 2]%Q)) 0%Q)
                      (nth 4 (sorted (sorted [5; 3; 1; 4; 2]%Q)) 0%Q) 170
           /\ p99 = interpolate round_double
                      (nth 3 (sorted (sorted [5; 3; 1; 4; 2]%Q)) 0%Q)
                      (nth 4 (sorted (sorted [5; 3; 1; 4; 2]%Q)) 0%Q) 194
           /\ 1 <= 4 <= 4 /\ 4 <= 5 - 1 /\ 0 <= 170 /\ 0 <= 194
           /\ (170 <= 100 <-> 19 <= 5) /\ (194 <= 100 <-> 99 <= 5)).
Proof.
  split.
  - apply (proj1 (percentiles_of_times (fun x => x) round_double [("filter", PDict [])]
                    [] 0 0 0 [] [] [] [])).
    reflexivity.
  - apply (proj2 (percentiles_of_times (fun x => x) round_double [("filter", PDict [])]
                    [] 5 0 0 [5; 3; 1; 4; 2]%Q [] [] [3; 3; 3; 3; 3])).
    discriminate.
Defined.

Lemma hint_tested_once_witness :
  let h1 := [("user", 1); ("at", -1)] in
  let h2 := [("at", -1); ("user", 1)] in
  (forall y, hint_eqb h1 y = true <-> h1 = y)
  /\ exists ext, [h2; h1] = ext ++ [h1] /\ ~ In h1 ext.
Proof.
  intros h1 h2.
  apply (hint_tested_once unit (succeeding_harness unit) default_args
           (TestQuery.mk (PStr "by_user") (PDict [("filter", PDict [])])
              (PList []) (PStr "shop") (PStr "events"))
           h1 [h1; h2; h1] [] [] "shop" "events" [("filter", PDict [])] tt
           (mkTestResult [("filter", PDict [])] h1 1000 10 1 0 0 0 0 0 0 0 0 None) tt
           (Return ([ mkTestResult [("filter", PDict [])] h1 1000 10 1 0 0 0 0 0 0 0 0 None;
                      mkTestResult [("filter", PDict [])] h2 1000 10 1 0 0 0 0 0 0 0 0 None ],
                    [h2; h1]))
           tt [h2; h1]); reflexivity.
Defined.

(** * Further properties of the code *)

(** ** Clearing the plan cache *)

Lemma py_int_raises_ValueError s e :
  py_int s = Raise e -> exists msg, e = ValueError msg.
Proof.
  unfold py_int.
  destruct (match lstrip s with
            | String "+"%char r => (1, r)
            | String "-"%char r => (-1, r)
            | _ => (1, lstrip s)
            end) as [sign digits].
  destruct (int_digits digits false 0 0) as [[z count] |].
  - destruct (int_max_str_digits <? count); intros H; inversion H; eauto.
  - intros H; inversion H; eauto.
Qed.

Lemma map_outcome_raises {A B} (f : A -> outcome B) (P : exn -> Prop) l e :
  (forall x e, f x = Raise e -> P e) -> map_outcome f l = Raise e -> P e.
Proof.
  intros Hf. induction l as [| x l IH]; cbn [map_outcome]; [discriminate |].
  destruct (f x) as [y | e1] eqn:Hx.
  - destruct (map_outcome f l) as [ys | e2]; [discriminate |].
    intros H. inversion H; subst. apply IH. reflexivity.
  - intros H. inversion H; subst. eapply Hf, Hx.
Qed.

Lemma parse_version_raises_ValueError v e :
  parse_version v = Raise e -> exists msg, e = ValueError msg.
Proof.
  unfold parse_version.
  apply (map_outcome_raises py_int (fun e => exists msg, e = ValueError msg)).
  apply py_int_raises_ValueError.
Qed.

(** [_clear_plan_cache], step by step. *)
Lemma clear_plan_cache_steps srv database collection h :
  _clear_plan_cache srv database collection h
  = match srv_buildInfo srv h with
    | Raise e => (Raise e, CallBuildInfo :: h)
    | Return bi =>
        match parse_version (version_of bi) with
        | Raise e =>
            (if is_PyMongoError e then Return tt else Raise e, CallBuildInfo :: h)
        | Return t =>
            let c := if tuple_ge t [4; 4]
                     then CallAdminPlanCacheClear (database ++ "." ++ collection)%string
                     else CallClientPlanCacheClear collection database in
            (match srv_planCacheClear srv (CallBuildInfo :: h) c with
             | Return _ => Return tt
             | Raise e => if is_PyMongoError e then Return tt else Raise e
             end, c :: CallBuildInfo :: h)
        end
    end.
Proof.
  unfold _clear_plan_cache, bind, request, try_except, lift, ret.
  destruct (srv_buildInfo srv h) as [bi | e]; [| reflexivity].
  fold (version_of bi).
  destruct (parse_version (version_of bi)) as [t | e].
  - change (parse_version "4.4") with (Return [4; 4]). cbv beta iota zeta.
    destruct (tuple_ge t [4; 4]); cbv beta iota zeta;
      match goal with
      | |- context [srv_planCacheClear ?s ?h ?c] =>
          destruct (srv_planCacheClear s h c) as [[] | e]
      end; try reflexivity; destruct (is_PyMongoError e); reflexivity.
  - destruct (is_PyMongoError e); reflexivity.
Qed.

(** X1: the form of the cache-clear command is selected by the parsed
    version: with a version that parses to [t], [_clear_plan_cache] issues
    the buildInfo lookup and then exactly one command, the admin form on
    "<database>.<collection>" when [t >= (4, 4)] and the legacy form
    otherwise; [(M, m, ...) >= (4, 4)] means [M > 4], or [M = 4] and
    [m >= 4], and a one-component version [(M,)] needs [M > 4]. *)
Theorem clear_plan_cache_by_version srv database collection h bi t :
  srv_buildInfo srv h = Return bi ->
  parse_version (version_of bi) = Return t ->
  snd (_clear_plan_cache srv database collection h)
  = (if tuple_ge t [4; 4]
     then CallAdminPlanCacheClear (database ++ "." ++ collection)%string
     else CallClientPlanCacheClear collection database) :: CallBuildInfo :: h
  /\ (forall M m rest,
        t = M :: m :: rest -> (tuple_ge t [4; 4] = true <-> 4 < M \/ (M = 4 /\ 4 <= m)))
  /\ (forall M, t = [M] -> (tuple_ge t [4; 4] = true <-> 4 < M)).
Proof.
  intros Hbi Ht. split; [| split].
  - rewrite clear_plan_cache_steps, Hbi, Ht. reflexivity.
  - intros M m rest ->. cbn [tuple_ge].
    destruct (Z.eqb_spec M 4) as [-> | HM].
    + destruct (Z.eqb_spec m 4) as [-> | Hm].
      * split; [intros _; right; split; lia | intros _; destruct rest; reflexivity].
      * rewrite Z.ltb_lt. lia.
    + rewrite Z.ltb_lt. lia.
  - intros M ->. cbn [tuple_ge].
    destruct (Z.eqb_spec M 4) as [-> | HM].
    + split; [discriminate | lia].
    + rewrite Z.ltb_lt. lia.
Qed.

Lemma clear_plan_cache_by_version_witness :
  snd (_clear_plan_cache healthy_server "shop" "events" [])
  = (if tuple_ge [7; 0; 2] [4; 4]
     then CallAdminPlanCacheClear "shop.events"
     else CallClientPlanCacheClear "events" "shop") :: [CallBuildInfo].
Proof.
  apply (proj1 (clear_plan_cache_by_version healthy_server "shop" "events" []
                  (Some "7.0.2") [7; 0; 2] eq_refl eq_refl)).
Defined.

(** X2: a cache-clear command that fails with an error of the driver does
    not stop the run: [_clear_plan_cache] returns normally; with any other
    exception it raises that exception. *)
Theorem clear_plan_cache_failure_downgraded srv database collection h bi t e :
  srv_buildInfo srv h = Return bi ->
  parse_version (version_of bi) = Return t ->
  (forall c, srv_planCacheClear srv (CallBuildInfo :: h) c = Raise e) ->
  fst (_clear_plan_cache srv database collection h)
  = if is_PyMongoError e then Return tt else Raise e.
Proof.
  intros Hbi Ht Hc. rewrite clear_plan_cache_steps, Hbi, Ht. cbv zeta.
  cbn [fst]. rewrite Hc. reflexivity.
Qed.

Lemma clear_plan_cache_failure_downgraded_witness :
  fst (_clear_plan_cache cache_clear_refused "shop" "events" []) = Return tt.
Proof.
  apply (clear_plan_cache_failure_downgraded cache_clear_refused "shop" "events" []
           (Some "3.6.8") [3; 6; 8] (PyMongoError "not authorized") eq_refl eq_refl).
  intros c. reflexivity.
Defined.

(** X3: a buildInfo reply whose version has a component that [int()] does
    not accept (a missing or empty version included) makes the whole
    harness raise the [ValueError] of the parse: it is not an error of the
    driver, so neither [try] catches it, and no cache-clear command or
    query is issued. *)
Theorem unparsable_version_escapes srv fsqrt fround database collection query index_hint
    iterations warmup_iterations sample_interval h bi e :
  srv_buildInfo srv h = Return bi ->
  parse_version (version_of bi) = Raise e ->
  test_index_performance srv fsqrt fround database collection query index_hint
    iterations warmup_iterations sample_interval h
  = (Raise e, CallBuildInfo :: h)
  /\ exists msg, e = ValueError msg.
Proof.
  intros Hbi Hv. destruct (parse_version_raises_ValueError _ _ Hv) as [msg ->].
  split; [| eauto].
  unfold test_index_performance, measurement, try_except, bind.
  rewrite clear_plan_cache_steps, Hbi, Hv. reflexivity.
Qed.

Lemma unparsable_version_escapes_witness :
  test_index_performance versionless_server (fun x => x) (fun x => x) "shop" "events"
    [("filter", PDict [])] [] 10 1 1 []
  = (Raise (ValueError "invalid literal for int()"), [CallBuildInfo])
  /\ exists msg, ValueError "invalid literal for int()" = ValueError msg.
Proof.
  apply (unparsable_version_escapes versionless_server (fun x => x) (fun x => x)
           "shop" "events"
           [("filter", PDict [])] [] 10 1 1 [] None
           (ValueError "invalid literal for int()") eq_refl eq_refl).
Defined.

(** ** The warm-up *)

Lemma repeat_app_cons {A} (a : A) n l : repeat a n ++ a :: l = a :: repeat a n ++ l.
Proof. induction n as [| n IH]; cbn; [reflexivity | rewrite IH; reflexivity]. Qed.

(** X4: when the query has a filter and the server answers, the warm-up
    executes the composed query with limit 0 exactly [warmup_iterations]
    times and nothing else; a count of zero or less executes nothing. *)
Theorem warmup_executes_n_queries srv database collection query index_hint c
    warmup_iterations h :
  _build_query_cursor query index_hint = Return c ->
  (forall h', exists k,
      srv_find srv h' database collection (cursor_limit (PInt 0) c) = Return k) ->
  _perform_warmup srv database collection query index_hint warmup_iterations h
  = (Return tt,
     repeat (CallFind database collection (cursor_limit (PInt 0) c))
       (Z.to_nat warmup_iterations) ++ h).
Proof.
  intros Hc Hsrv. unfold _perform_warmup. rewrite Hc.
  replace (Z.to_nat warmup_iterations) with (length (py_range warmup_iterations))
    by (unfold py_range; rewrite length_map, length_seq; reflexivity).
  generalize (py_range warmup_iterations). intros l.
  revert h. induction l as [| x l IH]; intros h; cbn [for_each length repeat app].
  - reflexivity.
  - unfold bind at 1. unfold bind at 1. unfold lift at 1.
    unfold bind at 1. unfold request at 1.
    destruct (Hsrv h) as [k Hk]. rewrite Hk. unfold ret at 1.
    rewrite IH. rewrite repeat_app_cons. reflexivity.
Qed.

Lemma warmup_executes_n_queries_witness :
  _perform_warmup healthy_server "shop" "events"
    [("filter", PDict []); ("limit", PInt 5)] [] 3 []
  = (Return tt,
     repeat (CallFind "shop" "events"
               (cursor_limit (PInt 0) (cursor_limit (PInt 5) (find (PDict []) None))))
       (Z.to_nat 3) ++ []).
Proof.
  apply (warmup_executes_n_queries healthy_server "shop" "events"
           [("filter", PDict []); ("limit", PInt 5)] []
           (cursor_limit (PInt 5) (find (PDict []) None)) 3 [] eq_refl).
  intros h'. exists 3%nat. reflexivity.
Defined.

(** X5: a query without a filter stops the first warm-up iteration with
    [KeyError] before any request; without warm-up iterations the same
    happens in the first timed iteration. *)
Theorem missing_filter_raises_before_any_query srv database collection query
    index_hint iterations warmup_iterations sample_interval h :
  dict_get "filter" query = None ->
  (0 < warmup_iterations ->
   _perform_warmup srv database collection query index_hint warmup_iterations h
   = (Raise (KeyError "filter"), h))
  /\ (0 < iterations ->
      _perform_testing srv database collection query index_hint iterations
        sample_interval h
      = (Raise (KeyError "filter"), h)).
Proof.
  intros Hf.
  assert (Hb : _build_query_cursor query index_hint = Raise (KeyError "filter")).
  { unfold _build_query_cursor, dict_item. rewrite Hf. reflexivity. }
  split; intros Hn.
  - unfold _perform_warmup, py_range.
    destruct (Z.to_nat warmup_iterations) as [| n] eqn:E; [lia |].
    cbn [seq map for_each]. unfold bind, lift. rewrite Hb. reflexivity.
  - unfold _perform_testing, py_range.
    destruct (Z.to_nat iterations) as [| n] eqn:E; [lia |].
    cbn [seq map for_each]. unfold bind at 1. unfold testing_iteration.
    unfold bind, read_clock, lift. rewrite Hb. reflexivity.
Qed.

Lemma missing_filter_raises_before_any_query_witness :
  _perform_warmup healthy_server "shop" "events" [("sort", PDict [("at", PInt 1)])]
    [] 2 [CallBuildInfo]
  = (Raise (KeyError "filter"), [CallBuildInfo]).
Proof.
  apply (proj1 (missing_filter_raises_before_any_query healthy_server "shop" "events"
                  [("sort", PDict [("at", PInt 1)])] [] 10 2 1 [CallBuildInfo]
                  eq_refl)).
  reflexivity.
Defined.

(** ** The timed phase *)

(** What one iteration that returns has added to the samples. *)
Lemma testing_iteration_returns srv database collection query index_hint
    iterations sample_interval i ts de ke dr h ts' de' ke' dr' h' :
  testing_iteration srv database collection query index_hint iterations
    sample_interval i (ts, de, ke, dr) h = (Return (ts', de', ke', dr'), h') ->
  exists c n,
    _build_query_cursor query index_hint = Return c
    /\ ts' = ts ++ [(perf_counter srv (CallFind database collection c :: h)
                     - perf_counter srv h)%Q]
    /\ dr' = dr ++ [n]
    /\ (if sampled sample_interval iterations i
        then exists a b, de' = de ++ [a] /\ ke' = ke ++ [b]
        else de' = de /\ ke' = ke).
Proof.
  unfold testing_iteration, bind, read_clock, lift, request.
  fold (sampled sample_interval iterations i).
  destruct (_build_query_cursor query index_hint) as [c | e] eqn:Hc; [| discriminate].
  destruct (srv_find srv h database collection c) as [n | e]; [| discriminate].
  destruct (sampled sample_interval iterations i).
  - unfold _collect_execution_stats, bind, lift, request, ret. rewrite Hc.
    destruct (srv_explain srv (CallFind database collection c :: h) database
                collection c) as [st | e]; [| discriminate].
    cbn [fst snd]. intros H. inversion H; subst.
    exists c, (Z.of_nat n). repeat split. eauto.
  - unfold ret. intros H. inversion H; subst.
    exists c, (Z.of_nat n). repeat split.
Qed.

Lemma testing_loop_lengths srv database collection query index_hint iterations
    sample_interval l :
  forall ts de ke dr h ts' de' ke' dr' h',
    for_each (testing_iteration srv database collection query index_hint
                iterations sample_interval) l (ts, de, ke, dr) h
    = (Return (ts', de', ke', dr'), h') ->
    length ts' = (length ts + length l)%nat
    /\ length dr' = (length dr + length l)%nat
    /\ length de' = (length de
                     + length (filter (sampled sample_interval iterations) l))%nat
    /\ length ke' = (length ke
                     + length (filter (sampled sample_interval iterations) l))%nat.
Proof.
  induction l as [| i l IH]; intros ts de ke dr h ts' de' ke' dr' h';
    cbn [for_each length filter].
  - unfold ret. intros H. inversion H; subst. repeat split; lia.
  - unfold bind.
    destruct (testing_iteration srv database collection query index_hint iterations
                sample_interval i (ts, de, ke, dr) h)
      as [[[[[ts1 de1] ke1] dr1] | e] h1] eqn:Hstep; [| discriminate].
    intros Hrest. apply IH in Hrest.
    apply testing_iteration_returns in Hstep.
    destruct Hstep as (c & n & _ & -> & -> & Hs).
    rewrite !length_app in Hrest. cbn [length] in Hrest.
    destruct (sampled sample_interval iterations i).
    + destruct Hs as (a & b & -> & ->). rewrite !length_app in Hrest.
      cbn [length] in *. repeat split; lia.
    + destruct Hs as [-> ->]. repeat split; lia.
Qed.

(** X6: when the timed phase returns, it has recorded one timing and one
    count of returned documents per iteration, and one plan sample (in both
    sample lists) for each iteration [i] with [sample_interval > 0] and
    [i] a multiple of [sample_interval] or the last iteration; so with
    sampling enabled and at least one iteration the sample lists are not
    empty, and with [sample_interval = 1] every iteration is sampled. *)
Theorem timed_phase_sample_counts srv database collection query index_hint
    iterations sample_interval h ts de ke dr h' :
  _perform_testing srv database collection query index_hint iterations
    sample_interval h = (Return (ts, de, ke, dr), h') ->
  length ts = Z.to_nat iterations
  /\ length dr = Z.to_nat iterations
  /\ length de = length (filter (sampled sample_interval iterations)
                           (py_range iterations))
  /\ length ke = length de
  /\ (0 < sample_interval -> 0 < iterations -> de <> [])
  /\ (sample_interval = 1 -> length de = Z.to_nat iterations).
Proof.
  intros H. unfold _perform_testing in H. apply testing_loop_lengths in H.
  cbn [length] in H. destruct H as (Ht & Hr & Hd & Hk).
  assert (Hlen : length (py_range iterations) = Z.to_nat iterations).
  { unfold py_range. rewrite length_map, length_seq. reflexivity. }
  rewrite Hlen in *. repeat split; try lia.
  - intros Hsi Hit Hnil. rewrite Hnil in Hd. cbn [length] in Hd.
    unfold py_range in Hd.
    destruct (Z.to_nat iterations) as [| n] eqn:E; [lia |].
    cbn [seq map filter] in Hd.
    assert (Hs : sampled sample_interval iterations (Z.of_nat 0) = true).
    { unfold sampled. rewrite (proj2 (Z.ltb_lt 0 sample_interval) Hsi).
      cbn [Z.of_nat]. rewrite Z.mod_0_l by lia. reflexivity. }
    rewrite Hs in Hd. cbn [length] in Hd. lia.
  - intros ->. rewrite Hd, <- Hlen. cbn [Nat.add]. f_equal.
    apply forallb_filter_id. apply forallb_forall. intros i _.
    unfold sampled. rewrite Z.mod_1_r. reflexivity.
Qed.

Lemma timed_phase_sample_counts_witness :
  length [1; 1; 1; 1; 1]%Q = Z.to_nat 5
  /\ length [3; 3; 3; 3; 3] = Z.to_nat 5
  /\ length [10; 10; 10] = length (filter (sampled 3 5) (py_range 5))
  /\ length [3; 3; 3] = length [10; 10; 10]
  /\ (0 < 3 -> 0 < 5 -> [10; 10; 10] <> [])
  /\ (3 = 1 -> length [10; 10; 10] = Z.to_nat 5).
Proof.
  apply (timed_phase_sample_counts healthy_server "shop" "events"
           [("filter", PDict [])] [] 5 3 []
           [1; 1; 1; 1; 1]%Q [10; 10; 10] [3; 3; 3] [3; 3; 3; 3; 3]
           (snd (_perform_testing healthy_server "shop" "events"
                   [("filter", PDict [])] [] 5 3 []))).
  vm_compute. reflexivity.
Defined.

(** X7: under a clock that never runs backwards, no recorded timing is
    negative. *)
Theorem timings_nonnegative srv database collection query index_hint
    iterations sample_interval h ts de ke dr h' :
  monotonic_clock srv ->
  _perform_testing srv database collection query index_hint iterations
    sample_interval h = (Return (ts, de, ke, dr), h') ->
  Forall (fun t => 0 <= t)%Q ts.
Proof.
  intros Hclock H. unfold _perform_testing in H.
  apply (for_each_invariant
           (fun s : samples => Forall (fun t => 0 <= t)%Q (fst (fst (fst s))))) in H;
    [exact H | | constructor].
  intros i [[[ts0 de0] ke0] dr0] w [[[ts1 de1] ke1] dr1] w' Hinv Hstep.
  cbn [fst] in *. apply testing_iteration_returns in Hstep.
  destruct Hstep as (c & n & _ & -> & _ & _).
  apply Forall_app. split; [exact Hinv |]. constructor; [| constructor].
  specialize (Hclock w (CallFind database collection c)). lra.
Qed.

Lemma healthy_clock_monotonic : monotonic_clock healthy_server.
Proof.
  intros h c. cbn [perf_counter healthy_server length].
  rewrite <- Zle_Qle. lia.
Qed.

Lemma timings_nonnegative_witness :
  Forall (fun t => 0 <= t)%Q [1; 1; 1]%Q.
Proof.
  apply (timings_nonnegative healthy_server "shop" "events" [("filter", PDict [])] []
           3 0 [] [1; 1; 1]%Q [] [] [3; 3; 3]
           (snd (_perform_testing healthy_server "shop" "events"
                   [("filter", PDict [])] [] 3 0 []))
           healthy_clock_monotonic).
  vm_compute. reflexivity.
Defined.

(** X24: with [sample_interval <= 0] the harness requests no explain, the
    timed phase returns with both lists of plan samples empty, and from
    them the reducer computes 0 for the [avg_docs_examined] and
    [avg_keys_examined] arguments of its [TestResult(...)] call. *)
Theorem no_plan_samples_without_interval srv fsqrt fround database collection query
    index_hint iterations warmup_iterations sample_interval :
  sample_interval <= 0 ->
  emits (fun c => is_explain c = false)
    (test_index_performance srv fsqrt fround database collection query index_hint
       iterations warmup_iterations sample_interval)
  /\ (forall h times de ke dr h',
        _perform_testing srv database collection query index_hint iterations
          sample_interval h = (Return (times, de, ke, dr), h') ->
        de = [] /\ ke = []
        /\ forall kw,
             calculate_kwargs fsqrt fround query index_hint iterations warmup_iterations
               sample_interval times de ke dr = Return kw ->
             dict_get "avg_docs_examined" kw = Some (FFloat 0)
             /\ dict_get "avg_keys_examined" kw = Some (FFloat 0)).
Proof.
  intros Hsi. split; [apply unsampled_harness_emits, Hsi |].
  intros h times de ke dr h' Ht.
  destruct (testing_unsampled _ _ _ _ _ _ _ _ _ _ _ _ _ Hsi Ht) as [-> ->].
  split; [reflexivity | split; [reflexivity |]].
  intros kw. apply calculate_kwargs_unsampled.
Qed.

Lemma no_plan_samples_without_interval_witness :
  emits (fun c => is_explain c = false)
    (test_index_performance healthy_server (fun x => x) (fun x => x) "shop" "events"
       [("filter", PDict [])] [] 3 0 0)
  /\ fst (_perform_testing healthy_server "shop" "events" [("filter", PDict [])] [] 3 0
            [CallAdminPlanCacheClear "shop.events"; CallBuildInfo])
     = Return ([1; 1; 1]%Q, [], [], [3; 3; 3])
  /\ exists kw,
       calculate_kwargs (fun x => x) (fun x => x) [("filter", PDict [])] [] 3 0 0
         [1; 1; 1]%Q [] [] [3; 3; 3] = Return kw
       /\ dict_get "avg_docs_examined" kw = Some (FFloat 0)
       /\ dict_get "avg_keys_examined" kw = Some (FFloat 0).
Proof.
  pose proof (no_plan_samples_without_interval healthy_server (fun x => x) (fun x => x)
                "shop" "events" [("filter", PDict [])] [] 3 0 0 (Z.le_refl 0))
    as [He Hs].
  split; [exact He |]. split; [vm_compute; reflexivity |].
  destruct (Hs [CallAdminPlanCacheClear "shop.events"; CallBuildInfo]
              [1; 1; 1]%Q [] [] [3; 3; 3]
              [ CallFind "shop" "events" (find (PDict []) None);
                CallFind "shop" "events" (find (PDict []) None);
                CallFind "shop" "events" (find (PDict []) None);
                CallAdminPlanCacheClear "shop.events"; CallBuildInfo ])
    as (_ & _ & Hkw).
  - vm_compute. reflexivity.
  - eexists. split; [vm_compute; reflexivity |]. apply Hkw. vm_compute. reflexivity.
Defined.

(** ** How many requests a run makes *)

Lemma adds_ret {A} (a : A) : adds_at_most 0 (ret a).
Proof. intros h. exists []. split; [reflexivity | cbn; lia]. Qed.

Lemma adds_lift {A} (o : outcome A) : adds_at_most 0 (lift o).
Proof. intros h. exists []. split; [reflexivity | cbn; lia]. Qed.

Lemma adds_read_clock srv : adds_at_most 0 (read_clock srv).
Proof. intros h. exists []. split; [reflexivity | cbn; lia]. Qed.

Lemma adds_request {A} c (answer : history -> outcome A) :
  adds_at_most 1 (request c answer).
Proof. intros h. exists [c]. split; [reflexivity | cbn; lia]. Qed.

Lemma adds_weaken {A} n n' (m : M A) :
  (n <= n')%nat -> adds_at_most n m -> adds_at_most n' m.
Proof.
  intros Hn Hm h. destruct (Hm h) as [ext [E L]]. exists ext. split; [exact E | lia].
Qed.

Lemma adds_bind {A B} n1 n2 (m : M A) (k : A -> M B) :
  adds_at_most n1 m -> (forall a, adds_at_most n2 (k a)) ->
  adds_at_most (n1 + n2) (bind m k).
Proof.
  intros Hm Hk h. unfold bind. destruct (Hm h) as [e1 [E1 L1]].
  destruct (m h) as [[a | e] h1]; cbn [snd] in E1; subst h1.
  - destruct (Hk a (e1 ++ h)) as [e2 [E2 L2]]. exists (e2 ++ e1).
    rewrite E2, app_assoc, length_app. split; [reflexivity | lia].
  - exists e1. split; [reflexivity | lia].
Qed.

Lemma adds_for_each {A S} k (body : A -> S -> M S) l :
  (forall x s, adds_at_most k (body x s)) ->
  forall s, adds_at_most (k * length l) (for_each body l s).
Proof.
  intros Hb. induction l as [| x l IH]; intros s; cbn [for_each length].
  - apply (adds_weaken 0); [lia | apply adds_ret].
  - apply (adds_weaken (k + k * length l)); [lia |].
    apply adds_bind; [apply Hb | apply IH].
Qed.

Lemma adds_try_except {A} n1 n2 (m : M A) catches handler :
  adds_at_most n1 m -> (forall e, adds_at_most n2 (handler e)) ->
  adds_at_most (n1 + n2) (try_except m catches handler).
Proof.
  intros Hm Hh h. unfold try_except. destruct (Hm h) as [e1 [E1 L1]].
  destruct (m h) as [[a | e] h1]; cbn [snd] in E1; subst h1.
  - exists e1. split; [reflexivity | lia].
  - destruct (catches e).
    + destruct (Hh e (e1 ++ h)) as [e2 [E2 L2]]. exists (e2 ++ e1).
      rewrite E2, app_assoc, length_app. split; [reflexivity | lia].
    + exists e1. split; [reflexivity | lia].
Qed.

(** X8: a run of the harness never makes more than
    [2 + warmup_iterations + 2 * iterations] requests: the version lookup,
    one cache-clear command, one query per warm-up iteration, and one query
    and at most one explain per timed iteration. *)
Theorem harness_request_bound srv fsqrt fround database collection query index_hint
    iterations warmup_iterations sample_interval :
  adds_at_most (2 + Z.to_nat warmup_iterations + 2 * Z.to_nat iterations)
    (test_index_performance srv fsqrt fround database collection query index_hint
       iterations warmup_iterations sample_interval).
Proof.
  assert (Hlen : forall n, length (py_range n) = Z.to_nat n).
  { intros n. unfold py_range. rewrite length_map, length_seq. reflexivity. }
  unfold test_index_performance.
  apply (adds_weaken
           ((2 + (1 * length (py_range warmup_iterations)
                  + (2 * length (py_range iterations) + 0))) + 0));
    [rewrite !Hlen; lia |].
  apply adds_try_except; [| intros; apply adds_lift].
  unfold measurement. apply adds_bind.
  { unfold _clear_plan_cache. apply (adds_weaken (1 + (1 + 0))); [lia |].
    apply adds_bind; [apply adds_request |]. intros bi.
    apply adds_try_except; [| intros; apply adds_ret].
    apply (adds_weaken (0 + (0 + 1))); [lia |].
    apply adds_bind; [apply adds_lift |]. intros v.
    apply adds_bind; [apply adds_lift |]. intros t.
    destruct (tuple_ge v t); apply adds_request. }
  intros _. apply adds_bind.
  { unfold _perform_warmup. apply adds_for_each. intros _ _.
    apply (adds_weaken (0 + (1 + 0))); [lia |].
    apply adds_bind; [apply adds_lift |]. intros c.
    apply adds_bind; [apply adds_request | intros; apply adds_ret]. }
  intros _. apply adds_bind.
  { unfold _perform_testing. apply adds_for_each. intros i [[[ts de] ke] dr].
    unfold testing_iteration. apply (adds_weaken (0 + (0 + (1 + (0 + 1))))); [lia |].
    apply adds_bind; [apply adds_read_clock |]. intros t0.
    apply adds_bind; [apply adds_lift |]. intros c.
    apply adds_bind; [apply adds_request |]. intros n.
    apply adds_bind; [apply adds_read_clock |]. intros t1.
    destruct ((0 <? sample_interval)
              && ((i mod sample_interval =? 0) || (i =? iterations - 1)));
      [| apply (adds_weaken 0); [lia | apply adds_ret]].
    apply (adds_weaken ((0 + (1 + 0)) + 0)); [lia |].
    apply adds_bind; [| intros; apply adds_ret].
    unfold _collect_execution_stats.
    apply adds_bind; [apply adds_lift |]. intros c'.
    apply adds_bind; [apply adds_request | intros; apply adds_ret]. }
  intros [[[ts de] ke] dr]. apply adds_lift.
Qed.

(** ** The reducer *)

(** X9: on a non-empty list of timings the reducer computes all its
    keyword arguments without failing; [min_time] and [max_time] are
    timings of the list that bound every timing of it, and [avg_time] lies
    between them. *)
Theorem reducer_min_avg_max fsqrt fround query index_hint iteration warmup_iteration
    sample_interval times docs_examined keys_examined docs_returned :
  times <> [] ->
  exists kw avg mn mx,
    calculate_kwargs fsqrt fround query index_hint iteration warmup_iteration
      sample_interval times docs_examined keys_examined docs_returned = Return kw
    /\ dict_get "avg_time" kw = Some (FFloat avg)
    /\ dict_get "min_time" kw = Some (FFloat mn)
    /\ dict_get "max_time" kw = Some (FFloat mx)
    /\ (mn <= avg <= mx)%Q
    /\ In mn times /\ In mx times
    /\ (forall t, In t times -> (mn <= t <= mx)%Q).
Proof.
  intros Hne.
  destruct (calculate_kwargs_returns fsqrt fround query index_hint iteration
              warmup_iteration sample_interval times docs_examined keys_examined
              docs_returned Hne)
    as (avg & mn & mx & sd & p95 & p99 & de & ke & dr & Hkw & Hrest).
  eexists _, avg, mn, mx. split; [exact Hkw |].
  split; [reflexivity |]. split; [reflexivity |]. split; [reflexivity |]. exact Hrest.
Qed.

(** X10: [_calculate_results] never returns a [TestResult]: without
    timings it raises the [StatisticsError] of [statistics.mean], and with
    timings the [TypeError] of the [TestResult(...)] call that passes
    [avg_docs_returned]. *)
Theorem calculate_results_error fsqrt fround query index_hint iteration warmup_iteration
    sample_interval times docs_examined keys_examined docs_returned :
  _calculate_results fsqrt fround query index_hint iteration warmup_iteration
    sample_interval times docs_examined keys_examined docs_returned
  = match times with
    | [] => Raise (StatisticsError "mean requires at least one data point")
    | _ => Raise (TypeError
             "TestResult.__init__() got an unexpected keyword argument 'avg_docs_returned'")
    end.
Proof.
  destruct times as [| t times]; [reflexivity |].
  unfold _calculate_results.
  destruct (calculate_kwargs_returns fsqrt fround query index_hint iteration
              warmup_iteration sample_interval (t :: times) docs_examined
              keys_examined docs_returned ltac:(discriminate))
    as (avg & mn & mx & sd & p95 & p99 & de & ke & dr & Hkw & _).
  rewrite Hkw. reflexivity.
Qed.

Lemma reducer_min_avg_max_witness :
  exists kw avg mn mx,
    calculate_kwargs (fun x => x) (fun x => x) [("filter", PDict [])] [] 3 0 0
      [3; 1; 2]%Q [] [] [3; 3; 3] = Return kw
    /\ dict_get "avg_time" kw = Some (FFloat avg)
    /\ dict_get "min_time" kw = Some (FFloat mn)
    /\ dict_get "max_time" kw = Some (FFloat mx)
    /\ (mn <= avg <= mx)%Q
    /\ In mn [3; 1; 2]%Q /\ In mx [3; 1; 2]%Q
    /\ (forall t, In t [3; 1; 2]%Q -> (mn <= t <= mx)%Q).
Proof.
  apply (reducer_min_avg_max (fun x => x) (fun x => x) [("filter", PDict [])] [] 3 0 0
           [3; 1; 2]%Q [] [] [3; 3; 3]).
  discriminate.
Defined.

(** X11: a run whose cache clearing, warm-up and timed phase all complete
    does not return: the harness raises the [TypeError] of the
    [TestResult(...)] call when there was at least one iteration, and the
    [StatisticsError] of the empty mean otherwise; no request is made after
    the timed phase. *)
Theorem completed_run_raises srv fsqrt fround database collection query index_hint
    iterations warmup_iterations sample_interval h h1 h2 s h3 :
  _clear_plan_cache srv database collection h = (Return tt, h1) ->
  _perform_warmup srv database collection query index_hint warmup_iterations h1
  = (Return tt, h2) ->
  _perform_testing srv database collection query index_hint iterations
    sample_interval h2 = (Return s, h3) ->
  test_index_performance srv fsqrt fround database collection query index_hint
    iterations warmup_iterations sample_interval h
  = (Raise (if 0 <? iterations
            then TypeError
                   "TestResult.__init__() got an unexpected keyword argument 'avg_docs_returned'"
            else StatisticsError "mean requires at least one data point"), h3).
Proof.
  intros Hc Hw Ht. destruct s as [[[ts de] ke] dr].
  pose proof (timed_phase_sample_counts _ _ _ _ _ _ _ _ _ _ _ _ _ Ht) as (Hlen & _).
  unfold test_index_performance, try_except, measurement, bind. rewrite Hc, Hw, Ht.
  unfold lift. rewrite calculate_results_error.
  destruct (Z.ltb_spec 0 iterations).
  - destruct ts; [cbn [length] in Hlen; lia | reflexivity].
  - destruct ts; [reflexivity | cbn [length] in Hlen; lia].
Qed.

Lemma completed_run_raises_witness :
  test_index_performance healthy_server (fun x => x) (fun x => x) "shop" "events"
    [("filter", PDict [])] [] 0 1 1 []
  = (Raise (if 0 <? 0
            then TypeError
                   "TestResult.__init__() got an unexpected keyword argument 'avg_docs_returned'"
            else StatisticsError "mean requires at least one data point"),
     [CallFind "shop" "events" (find (PDict []) None);
      CallAdminPlanCacheClear "shop.events"; CallBuildInfo]).
Proof.
  apply (completed_run_raises healthy_server (fun x => x) (fun x => x) "shop" "events"
           [("filter", PDict [])] [] 0 1 1 []
           [CallAdminPlanCacheClear "shop.events"; CallBuildInfo]
           [CallFind "shop" "events" (find (PDict []) None);
            CallAdminPlanCacheClear "shop.events"; CallBuildInfo]
           ([], [], [], [])); reflexivity.
Defined.

(** ** The result record and the formatters *)


(** A result whose query selects by identifier, as the configuration loader
    builds it from "ObjectId('...')", has no JSON rendering. *)
Example json_formatter_rejects_identifier :
  JSONFormatter_format
    [ failed_result
        [("filter", PDict [("_id", PObjectId "65f0c0ffee65f0c0ffee65f0")])]
        [] 10 1 1 "cursor killed" ]
  = Raise (TypeError "Object of type ObjectId is not JSON serializable").
Proof. reflexivity. Qed.

Lemma format_row_table_raises r :
  format_row table_columns r = Raise (AttributeError "avg_docs_returned").
Proof. reflexivity. Qed.

Lemma format_row_csv_raises r :
  format_row csv_columns r = Raise (AttributeError "avg_docs_returned").
Proof. reflexivity. Qed.

(** X13: the table and the CSV formatter raise [AttributeError] on every
    non-empty sequence of results, because each row reads
    [result.avg_docs_returned]; hence [save_results] with the table format
    raises for every sequence of results. *)
Theorem row_formatters_raise (results : list TestResult) :
  (results <> [] ->
   TableFormatter_format results = Raise (AttributeError "avg_docs_returned")
   /\ CSVFormatter_format results = Raise (AttributeError "avg_docs_returned"))
  /\ exists e, save_results results "table" = Raise e.
Proof.
  assert (H : results <> [] ->
              TableFormatter_format results = Raise (AttributeError "avg_docs_returned")
              /\ CSVFormatter_format results
                 = Raise (AttributeError "avg_docs_returned")).
  { destruct results as [| r rs]; [congruence |]. intros _. split.
    - unfold TableFormatter_format.
      rewrite (list_item_nth (r :: rs) 0 r) by (cbn [length]; lia).
      cbn [bind_outcome Z.to_nat nth map_outcome].
      rewrite format_row_table_raises. reflexivity.
    - unfold CSVFormatter_format. cbn [map_outcome].
      rewrite format_row_csv_raises. reflexivity. }
  split; [exact H |].
  destruct results as [| r rs].
  - exists IndexError. reflexivity.
  - eexists. change (save_results (r :: rs) "table")
      with (TableFormatter_format (r :: rs)).
    apply H. discriminate.
Qed.

Lemma row_formatters_raise_witness :
  TableFormatter_format [failed_result [("filter", PDict [])] [] 10 1 1 "cursor killed"]
  = Raise (AttributeError "avg_docs_returned")
  /\ CSVFormatter_format [failed_result [("filter", PDict [])] [] 10 1 1 "cursor killed"]
     = Raise (AttributeError "avg_docs_returned").
Proof.
  apply (proj1 (row_formatters_raise
                  [failed_result [("filter", PDict [])] [] 10 1 1 "cursor killed"])).
  discriminate.
Defined.

(** ** Loading the configuration *)

Lemma dict_mem_get {V} k (d : list (string * V)) :
  dict_mem k d = true <-> exists v, dict_get k d = Some v.
Proof.
  unfold dict_mem. destruct (dict_get k d); split; eauto; try discriminate.
  intros [v H]. discriminate.
Qed.

(** What [from_dict] raises is a [ValueError] or a [KeyError]. *)
Lemma from_dict_raises data e :
  TestQuery.from_dict data = Raise e -> is_Exception e = true.
Proof.
  unfold TestQuery.from_dict, dict_item, bind_outcome.
  repeat match goal with
         | |- context [if ?b then _ else _] => destruct b
         | |- context [match dict_get ?k ?d with _ => _ end] => destruct (dict_get k d)
         end; intros H; inversion H; reflexivity.
Qed.

(** X14: an entry is loaded exactly when it has the keys "database",
    "collection", "name" and "query"; "hints" is optional. *)
Theorem from_dict_returns_iff (data : pydict) :
  (exists q, TestQuery.from_dict data = Return q) <-> has_required_keys data = true.
Proof.
  unfold has_required_keys, TestQuery.from_dict, dict_item, bind_outcome, dict_mem.
  destruct (dict_get "database" data), (dict_get "collection" data),
    (dict_get "name" data), (dict_get "query" data); cbn;
    split; try discriminate; eauto; intros [q H]; discriminate.
Qed.

(** X15: [load_test_queries] returns the entries converted in order when
    every entry has the four required keys, and otherwise ends the process
    with exit status 1, whatever the conversion raised. *)
Theorem load_test_queries_all_or_exit (data : list pydict) :
  (forallb has_required_keys data = true ->
   exists qs,
     load_test_queries data = Return qs
     /\ Forall2 (fun d q => TestQuery.from_dict d = Return q) data qs)
  /\ (forallb has_required_keys data = false ->
      load_test_queries data = Raise (SystemExit 1)).
Proof.
  unfold load_test_queries. induction data as [| d data [IH1 IH2]];
    cbn [forallb map_outcome].
  - split; [intros _; exists []; split; [reflexivity | constructor] | discriminate].
  - split.
    + intros H. apply andb_true_iff in H. destruct H as [Hd Hrest].
      apply from_dict_returns_iff in Hd. destruct Hd as [q Hq]. rewrite Hq.
      destruct (IH1 Hrest) as [qs [Hqs HF]].
      destruct (map_outcome TestQuery.from_dict data) as [qs' | e].
      * inversion Hqs; subst. exists (q :: qs). split; [reflexivity |].
        constructor; assumption.
      * destruct (is_Exception e); discriminate.
    + intros H. destruct (TestQuery.from_dict d) as [q | e] eqn:Hd.
      * assert (Hk : has_required_keys d = true)
          by (apply from_dict_returns_iff; eauto).
        rewrite Hk in H. cbn [andb] in H. specialize (IH2 H).
        destruct (map_outcome TestQuery.from_dict data) as [qs' | e];
          [discriminate | exact IH2].
      * rewrite (from_dict_raises _ _ Hd). reflexivity.
Qed.

Lemma load_test_queries_all_or_exit_witness :
  load_test_queries
    [ [("name", PStr "by_user"); ("query", PDict [("filter", PDict [])]);
       ("database", PStr "shop"); ("collection", PStr "events")];
      [("name", PStr "by_day"); ("query", PDict [("filter", PDict [])]);
       ("database", PStr "shop")] ]
  = Raise (SystemExit 1).
Proof.
  apply (proj2 (load_test_queries_all_or_exit
                  [ [("name", PStr "by_user"); ("query", PDict [("filter", PDict [])]);
                     ("database", PStr "shop"); ("collection", PStr "events")];
                    [("name", PStr "by_day"); ("query", PDict [("filter", PDict [])]);
                     ("database", PStr "shop")] ])).
  reflexivity.
Defined.

(** ** The orchestrator *)

Lemma key_eqb_refl k : key_eqb k k = true.
Proof. unfold key_eqb. rewrite !String.eqb_refl. reflexivity. Qed.

(** After [test_query] has returned, the hash of the query is recorded. *)
Lemma test_query_marks W harness args q p p' :
  test_query W harness args q tt p = (Return tt, p') ->
  existsb (key_eqb (TestQuery.hash q)) (tested_queries W p') = true.
Proof.
  unfold test_query.
  destruct (existsb (key_eqb (TestQuery.hash q)) (tested_queries W p)) eqn:Hin.
  - intros H. inversion H; subst. exact Hin.
  - unfold bind, lift, in_world.
    destruct (as_hints (TestQuery.hints q)) as [hs | e]; [| discriminate].
    destruct (test_hints W harness args q hs (world W p)) as [[acc | e] w]; [| discriminate].
    destruct (save_results (fst acc) (arg_output_format args)) as [doc | e];
      [| discriminate].
    unfold print, mark_query_tested. cbn [tested_queries].
    intros H. inversion H; subst. cbn [tested_queries existsb].
    rewrite key_eqb_refl. reflexivity.
Qed.

(** X16: query-level deduplication looks at the query and the hints only:
    once an entry has been processed, a later entry with the same query and
    hints is skipped without any effect, even when its name, database or
    collection differ. *)
Theorem same_query_other_collection_skipped W harness args q1 q2 p p' :
  test_query W harness args q1 tt p = (Return tt, p') ->
  TestQuery.query q2 = TestQuery.query q1 ->
  TestQuery.hints q2 = TestQuery.hints q1 ->
  test_query W harness args q2 tt p' = (Return tt, p').
Proof.
  intros H Hq Hh. apply test_query_marks in H.
  unfold test_query, TestQuery.hash in *. rewrite Hq, Hh, H. reflexivity.
Qed.

Lemma same_query_other_collection_skipped_witness :
  let q1 := TestQuery.mk (PStr "by_user") (PDict [("filter", PDict [])])
              (PList []) (PStr "shop") (PStr "events") in
  let q2 := TestQuery.mk (PStr "archive") (PDict [("filter", PDict [])])
              (PList []) (PStr "shop") (PStr "events_2019") in
  let p' := mkProcess unit tt [] [DocJSON []] [TestQuery.hash q1] in
  test_query unit (succeeding_harness unit) (mkArgs 10 1 1 "json") q2 tt p'
  = (Return tt, p').
Proof.
  intros q1 q2 p'.
  apply (same_query_other_collection_skipped unit (succeeding_harness unit)
           (mkArgs 10 1 1 "json") q1 q2 (mkProcess unit tt [] [] []) p');
    reflexivity.
Defined.

Lemma test_hints_loop_invariant W harness args q hs :
  forall results tested w results' tested' w',
    Forall (fun r => error r = None) results ->
    length results = length tested ->
    NoDup tested ->
    for_each (test_hint W harness args q) hs (results, tested) w
    = (Return (results', tested'), w') ->
    Forall (fun r => error r = None) results'
    /\ length results' = length tested'
    /\ NoDup tested'
    /\ (forall x, In x tested' -> In x tested \/ In x hs).
Proof.
  induction hs as [| h hs IH]; intros results tested w results' tested' w' HF HL HN;
    cbn [for_each].
  - unfold ret. intros H. inversion H; subst. repeat split; auto.
  - unfold bind at 1. unfold test_hint at 1.
    destruct (existsb (hint_eqb h) tested) eqn:Hin.
    + unfold ret at 1. intros H. apply IH in H; try assumption.
      destruct H as (H1 & H2 & H3 & H4). repeat split; try assumption.
      intros x Hx. destruct (H4 x Hx); [left | right; right]; assumption.
    + unfold bind, lift.
      destruct (as_str (TestQuery.database q)) as [d | e]; [| discriminate].
      destruct (as_str (TestQuery.collection q)) as [c | e]; [| discriminate].
      destruct (as_pydict (TestQuery.query q)) as [qd | e]; [| discriminate].
      destruct (harness d c qd h (arg_iterations args) (arg_warmup args)
                  (arg_sample_interval args) w) as [[r | e] w1]; [| discriminate].
      destruct (error r) eqn:Hr; unfold ret at 1; intros H; apply IH in H.
      * destruct H as (H1 & H2 & H3 & H4). repeat split; try assumption.
        intros x Hx. destruct (H4 x Hx); [left | right; right]; assumption.
      * assumption.
      * assumption.
      * assumption.
      * destruct H as (H1 & H2 & H3 & H4). repeat split; try assumption.
        intros x Hx. destruct (H4 x Hx) as [[<- | Ht] | Hh];
          [right; left; reflexivity | left; assumption | right; right; assumption].
      * apply Forall_app. split; [assumption | repeat constructor; assumption].
      * rewrite length_app. cbn [length]. lia.
      * constructor; [| assumption]. intros Hc. apply tested_hint_In in Hc. congruence.
Qed.

(** X17: the results collected for a query contain no failed trial; there
    is one result per tested hint, no hint is recorded as tested twice, and
    every tested hint is one of the hints of the query. *)
Theorem test_hints_results_error_free W harness args q hs w results tested w' :
  test_hints W harness args q hs w = (Return (results, tested), w') ->
  Forall (fun r => error r = None) results
  /\ length results = length tested
  /\ NoDup tested
  /\ incl tested hs.
Proof.
  intros H. unfold test_hints in H. apply test_hints_loop_invariant in H;
    [| constructor | reflexivity | constructor].
  destruct H as (H1 & H2 & H3 & H4). repeat split; try assumption.
  intros x Hx. destruct (H4 x Hx) as [[] | Hh]. exact Hh.
Qed.

Lemma test_hints_results_error_free_witness :
  let h1 := [("user", 1)] in
  let r := mkTestResult [("filter", PDict [])] h1 1000 10 1 0 0 0 0 0 0 0 0 None in
  Forall (fun r => error r = None) [r]
  /\ length [r] = length [h1]
  /\ NoDup [h1]
  /\ incl [h1] [h1; h1].
Proof.
  intros h1 r.
  apply (test_hints_results_error_free unit (succeeding_harness unit) default_args
           (TestQuery.mk (PStr "by_user") (PDict [("filter", PDict [])])
              (PList []) (PStr "shop") (PStr "events"))
           [h1; h1] tt [r] [h1] tt).
  reflexivity.
Defined.

(** X18: with the harness of tester.py no hint is ever recorded as tested
    and no result is ever collected: every result the harness returns
    carries an error. *)
Theorem real_harness_collects_nothing srv fsqrt fround args q hs h results tested h' :
  test_hints history (test_index_performance srv fsqrt fround) args q hs h
  = (Return (results, tested), h') ->
  results = [] /\ tested = [].
Proof.
  intros H. unfold test_hints in H.
  apply (for_each_invariant
           (fun acc : list TestResult * list IndexHint => acc = ([], []))) in H;
    [inversion H; split; reflexivity | | reflexivity].
  intros x [rs ts] w [rs' ts'] w' Hacc. inversion Hacc; subst.
  unfold test_hint. cbn [existsb]. unfold bind, lift.
  destruct (as_str (TestQuery.database q)) as [d | e]; [| discriminate].
  destruct (as_str (TestQuery.collection q)) as [c | e]; [| discriminate].
  destruct (as_pydict (TestQuery.query q)) as [qd | e]; [| discriminate].
  destruct (test_index_performance srv fsqrt fround d c qd x (arg_iterations args)
              (arg_warmup args) (arg_sample_interval args) w)
    as [[r | e] w1] eqn:Hrun; [| discriminate].
  apply harness_result_is_failed_result in Hrun. destruct Hrun as [msg ->].
  cbn [error failed_result]. unfold ret. intros H'. inversion H'; reflexivity.
Qed.

Lemma real_harness_collects_nothing_witness :
  (@nil TestResult) = [] /\ (@nil IndexHint) = [].
Proof.
  apply (real_harness_collects_nothing (fails_on_find 0) (fun x => x) (fun x => x)
           (mkArgs 2 0 1 "json")
           (TestQuery.mk (PStr "by_user") (PDict [("filter", PDict [])])
              (PList []) (PStr "shop") (PStr "events"))
           [[("user", 1)]] [] [] []
           (snd (test_hints history
                   (test_index_performance (fails_on_find 0) (fun x => x) (fun x => x))
                   (mkArgs 2 0 1 "json")
                   (TestQuery.mk (PStr "by_user") (PDict [("filter", PDict [])])
                      (PList []) (PStr "shop") (PStr "events"))
                   [[("user", 1)]] []))).
  vm_compute. reflexivity.
Defined.

(** [main] is its first attempt: a normal end is passed on, an exception
    of any kind becomes the [NameError] of the except clause. *)
Lemma main_is_first_attempt W harness connect args qs (p : Process W) :
  main W harness connect args qs p
  = match attempt_body W harness connect args qs p with
    | (Return _, p') => (Return tt, p')
    | (Raise _, p') => (Raise (NameError "errors"), p')
    end.
Proof.
  unfold main, orchestrate, py_range, DEFAULT_CONFIG.max_retries.
  change (Z.to_nat 3) with 3%nat. cbn [seq map]. cbn [retry_loop].
  destruct (attempt_body W harness connect args qs p) as [[[] | e] p']; reflexivity.
Qed.

Lemma keeps_sleeps_ret {W A} (a : A) : keeps_sleeps (W := W) (ret a).
Proof. intros p. reflexivity. Qed.

Lemma keeps_sleeps_lift {W A} (o : outcome A) : keeps_sleeps (W := W) (lift o).
Proof. intros p. reflexivity. Qed.

Lemma keeps_sleeps_in_world {W A} (m : State W A) : keeps_sleeps (in_world W m).
Proof. intros p. unfold in_world. destruct (m (world W p)). reflexivity. Qed.

Lemma keeps_sleeps_bind {W A B} (m : State (Process W) A) (k : A -> State (Process W) B) :
  keeps_sleeps m -> (forall a, keeps_sleeps (k a)) -> keeps_sleeps (bind m k).
Proof.
  intros Hm Hk p. unfold bind. specialize (Hm p).
  destruct (m p) as [[a | e] p1]; cbn [snd] in *.
  - rewrite (Hk a p1). exact Hm.
  - exact Hm.
Qed.

Lemma keeps_sleeps_for_each {W A S} (body : A -> S -> State (Process W) S) l :
  (forall x s, keeps_sleeps (body x s)) -> forall s, keeps_sleeps (for_each body l s).
Proof.
  intros Hb. induction l as [| x l IH]; intros s; cbn [for_each].
  - apply keeps_sleeps_ret.
  - apply keeps_sleeps_bind; [apply Hb | apply IH].
Qed.

Lemma keeps_sleeps_attempt_body W harness connect args qs :
  keeps_sleeps (attempt_body W harness connect args qs).
Proof.
  unfold attempt_body. apply keeps_sleeps_bind; [apply keeps_sleeps_in_world |].
  intros _. apply keeps_sleeps_for_each. intros q []. intros p. unfold test_query.
  destruct (existsb (key_eqb (TestQuery.hash q)) (tested_queries W p)); [reflexivity |].
  revert p. fold (keeps_sleeps (W := W) (A := unit)).
  apply keeps_sleeps_bind; [apply keeps_sleeps_lift |]. intros hs.
  apply keeps_sleeps_bind; [apply keeps_sleeps_in_world |]. intros acc.
  apply keeps_sleeps_bind; [apply keeps_sleeps_lift |]. intros doc.
  apply keeps_sleeps_bind; [intros p; reflexivity |]. intros _.
  intros p. reflexivity.
Qed.

(** X19: [main] never retries and never sleeps: it makes one attempt, ends
    normally when that attempt does, and ends with the [NameError] of its
    except clause whenever the attempt raises anything, a refused
    connection included; the list of sleeps is left as it was. *)
Theorem main_never_retries W harness connect args qs (p : Process W) :
  sleeps W (snd (main W harness connect args qs p)) = sleeps W p
  /\ (forall p', attempt_body W harness connect args qs p = (Return tt, p') ->
                 main W harness connect args qs p = (Return tt, p'))
  /\ (forall e p', attempt_body W harness connect args qs p = (Raise e, p') ->
                   main W harness connect args qs p = (Raise (NameError "errors"), p')).
Proof.
  rewrite main_is_first_attempt.
  pose proof (keeps_sleeps_attempt_body W harness connect args qs p) as Hs.
  destruct (attempt_body W harness connect args qs p) as [[[] | e] p1];
    cbn [snd] in *; (split; [exact Hs |]); split; intros; congruence.
Qed.

(** X20: with the default table format and the harness of tester.py,
    [main] cannot get past the first query of a configuration: the harness
    yields no successful result, the table formatter raises on the empty
    sequence, and the process ends with [NameError]. *)
Theorem main_table_never_completes srv fsqrt fround connect args q qs
    (p : Process history) :
  arg_output_format args = "table" ->
  tested_queries history p = [] ->
  exists p',
    main history (test_index_performance srv fsqrt fround) connect args (q :: qs) p
    = (Raise (NameError "errors"), p').
Proof.
  intros Hfmt Hnone.
  assert (H : exists e p',
             attempt_body history (test_index_performance srv fsqrt fround) connect args
               (q :: qs) p = (Raise e, p')).
  { unfold attempt_body. unfold bind at 1. unfold in_world at 1.
    destruct (connect (world history p)) as [[[] | e] w1]; [| eauto].
    cbn [for_each]. unfold bind at 1. unfold test_query at 1.
    cbn [tested_queries]. rewrite Hnone. cbn [existsb].
    unfold bind at 1. unfold lift at 1.
    destruct (as_hints (TestQuery.hints q)) as [hs | e]; [| eauto].
    unfold bind at 1. unfold in_world at 1. cbn [world].
    destruct (test_hints history (test_index_performance srv fsqrt fround) args q hs w1)
      as [[[rs ts] | e] w2] eqn:Hh; [| eauto].
    apply real_harness_collects_nothing in Hh. destruct Hh as [-> ->].
    unfold bind at 1. unfold lift at 1. cbn [fst]. rewrite Hfmt.
    change (save_results [] "table") with (@Raise document IndexError). eauto. }
  destruct H as (e & p' & H). exists p'.
  eapply main_first_failure_is_fatal, H.
Qed.

Lemma main_table_never_completes_witness :
  exists p',
    main history (test_index_performance healthy_server (fun x => x) (fun x => x)) (ret tt)
      default_args
      [TestQuery.mk (PStr "by_user") (PDict [("filter", PDict [])])
         (PList [PDict [("user", PInt 1)]]) (PStr "shop") (PStr "events")]
      (mkProcess history [] [] [] [])
    = (Raise (NameError "errors"), p').
Proof.
  apply (main_table_never_completes healthy_server (fun x => x) (fun x => x) (ret tt)
           default_args
           (TestQuery.mk (PStr "by_user") (PDict [("filter", PDict [])])
              (PList [PDict [("user", PInt 1)]]) (PStr "shop") (PStr "events"))
           [] (mkProcess history [] [] [] [])); reflexivity.
Defined.

Lemma main_never_retries_witness :
  main nat (succeeding_harness nat) connect_third_time default_args []
    (mkProcess nat 0%nat [] [] [])
  = (Raise (NameError "errors"), mkProcess nat 1%nat [] [] []).
Proof.
  apply (proj2 (proj2 (main_never_retries nat (succeeding_harness nat)
                         connect_third_time default_args []
                         (mkProcess nat 0%nat [] [] [])))
           (ConnectionFailure "connection refused")).
  reflexivity.
Defined.

(** ** The object hook of the configuration loader *)

Lemma str_index_absent c s : occurs c s = false -> str_index c s = None.
Proof.
  induction s as [| a s IH]; cbn [occurs str_index]; [reflexivity |].
  intros H. apply orb_false_iff in H. destruct H as [Ha Hs].
  rewrite Ha, (IH Hs). reflexivity.
Qed.

Lemma str_index_first c s t :
  occurs c s = false -> str_index c (s ++ String c t) = Some (String.length s).
Proof.
  induction s as [| a s IH]; cbn [occurs str_index String.append String.length].
  - intros _. rewrite Ascii.eqb_refl. reflexivity.
  - intros H. apply orb_false_iff in H. destruct H as [Ha Hs].
    rewrite Ha, (IH Hs). reflexivity.
Qed.

Lemma substring_prefix s t : substring 0 (String.length s) (s ++ t) = s.
Proof.
  induction s as [| a s IH]; cbn [String.length String.append substring].
  - destruct t; reflexivity.
  - rewrite IH. reflexivity.
Qed.

Lemma string_app_assoc (a b c : string) : ((a ++ b) ++ c = a ++ (b ++ c))%string.
Proof. induction a as [| x a IH]; cbn; [reflexivity | rewrite IH; reflexivity]. Qed.

Lemma string_length_app (a b : string) :
  String.length (a ++ b) = (String.length a + String.length b)%nat.
Proof. induction a as [| x a IH]; cbn; [reflexivity | rewrite IH; reflexivity]. Qed.

Lemma prefix_split p s : prefix p s = true -> exists t, s = (p ++ t)%string.
Proof.
  revert s. induction p as [| a p IH]; intros s.
  - intros _. exists s. reflexivity.
  - destruct s as [| b s]; cbn [prefix String.append]; [discriminate |].
    destruct (ascii_dec a b) as [E | N]; [| discriminate].
    intros H. destruct (IH s H) as [t Ht]. exists t. rewrite E, Ht. reflexivity.
Qed.

Section ObjectHookProperties.

Variable oid : Type.
Variable ObjectId : string -> outcome oid.

(** X21: a string that starts with "ObjectId(" is replaced by the
    identifier built from the text between the character that follows the
    parenthesis and the character that precedes the first closing
    parenthesis, both of which are dropped whatever they are; if the
    constructor rejects that text, its exception is raised. *)
Theorem adjust_string_identifier (q1 q2 : ascii) (body rest : string) :
  occurs ")"%char (String q1 (body ++ String q2 EmptyString)) = false ->
  adjsut_object_id oid ObjectId
    (JStr ("ObjectId(" ++ String q1 (body ++ String q2 (String ")"%char rest))))
  = (o <-- ObjectId body ;; Return (JObjectId o)).
Proof.
  intros Hocc. cbn [adjsut_object_id]. unfold adjust_string.
  cbn [prefix String.append]. cbn [str_index Ascii.eqb Bool.eqb].
  cbn [occurs] in Hocc. apply orb_false_iff in Hocc. destruct Hocc as [Hq1 Hb].
  rewrite Hq1.
  replace (body ++ String q2 (String ")"%char rest))%string
    with ((body ++ String q2 EmptyString) ++ String ")"%char rest)%string
    by (rewrite string_app_assoc; reflexivity).
  rewrite (str_index_first _ _ _ Hb).
  unfold py_slice. rewrite string_length_app. cbn [String.length Nat.add].
  replace (S (S (S (S (S (S (S (S (S (S (String.length body + 1)))))))))) - 1 - 10)%nat
    with (String.length body) by lia.
  cbn [substring]. rewrite string_app_assoc, substring_prefix. reflexivity.
Qed.

Lemma json_object_hook_app (before rest : list (string * jval oid)) :
  json_object_hook oid ObjectId (before ++ rest)
  = match json_object_hook oid ObjectId before with
    | Raise e => Raise e
    | Return b =>
        match json_object_hook oid ObjectId rest with
        | Raise e => Raise e
        | Return r => Return (b ++ r)
        end
    end.
Proof.
  induction before as [| [k v] before IH]; cbn [app json_object_hook].
  - destruct (json_object_hook oid ObjectId rest); reflexivity.
  - destruct (adjsut_object_id oid ObjectId v); [| reflexivity].
    rewrite IH. destruct (json_object_hook oid ObjectId before); [| reflexivity].
    destruct (json_object_hook oid ObjectId rest); reflexivity.
Qed.

(** X22: a string that starts with "ObjectId(" and has no closing
    parenthesis makes [adjsut_object_id] raise [ValueError].  The hook
    raises it on an object that holds the string at top level when the
    entries before it are adjusted without an exception; when one of them
    raises, the hook raises that exception instead. *)
Theorem unclosed_identifier_raises (value : string) :
  prefix "ObjectId(" value = true ->
  occurs ")"%char value = false ->
  adjsut_object_id oid ObjectId (JStr value) = Raise (ValueError "substring not found")
  /\ (forall before before' key d,
        json_object_hook oid ObjectId before = Return before' ->
        json_object_hook oid ObjectId (before ++ (key, JStr value) :: d)
        = Raise (ValueError "substring not found"))
  /\ (forall before e key d,
        json_object_hook oid ObjectId before = Raise e ->
        json_object_hook oid ObjectId (before ++ (key, JStr value) :: d) = Raise e).
Proof.
  intros Hp Hocc.
  assert (H : adjsut_object_id oid ObjectId (JStr value)
              = Raise (ValueError "substring not found")).
  { cbn [adjsut_object_id]. unfold adjust_string. rewrite Hp.
    rewrite (str_index_absent _ _ Hocc).
    destruct (str_index "("%char value); reflexivity. }
  split; [exact H |]. split.
  - intros before before' key d Hb. rewrite json_object_hook_app, Hb.
    cbn [json_object_hook]. rewrite H. reflexivity.
  - intros before e key d Hb. rewrite json_object_hook_app, Hb. reflexivity.
Qed.

Lemma adjust_plain :
  forall v : jval oid, plain oid v = true -> adjsut_object_id oid ObjectId v = Return v.
Proof.
  fix IH 1. intros [| b | z | q | s | l | d | o]; cbn [plain adjsut_object_id];
    try reflexivity.
  - unfold adjust_string. destruct (prefix "ObjectId(" s); [discriminate | reflexivity].
  - intros H.
    match goal with
    | |- match ?f l with _ => _ end = _ => assert (E : f l = Return l)
    end.
    { induction l as [| a l IHl]; [reflexivity |].
      apply andb_true_iff in H. destruct H as [Ha Hl].
      rewrite (IH a Ha), (IHl Hl). reflexivity. }
    rewrite E. reflexivity.
  - intros H.
    match goal with
    | |- match ?f d with _ => _ end = _ => assert (E : f d = Return d)
    end.
    { induction d as [| [k a] d IHd]; [reflexivity |].
      apply andb_true_iff in H. destruct H as [Ha Hd].
      rewrite (IH a Ha), (IHd Hd). reflexivity. }
    rewrite E. reflexivity.
Qed.

(** X23: the hook leaves an object untouched when none of its strings, at
    any depth, starts with "ObjectId(". *)
Theorem object_hook_identity (d : list (string * jval oid)) :
  plain oid (JDict d) = true ->
  json_object_hook oid ObjectId d = Return d
  /\ adjsut_object_id oid ObjectId (JDict d) = Return (JDict d).
Proof.
  intros H. split; [| apply adjust_plain, H].
  cbn [plain] in H. induction d as [| [k v] d IH]; [reflexivity |].
  apply andb_true_iff in H. destruct H as [Hv Hd].
  cbn [json_object_hook]. rewrite (adjust_plain v Hv), (IH Hd). reflexivity.
Qed.

End ObjectHookProperties.

Lemma adjust_string_identifier_witness :
  adjsut_object_id string ObjectId_of_24
    (JStr "ObjectId('65f0c0ffee0123456789abcd')")
  = Return (JObjectId "65f0c0ffee0123456789abcd").
Proof.
  apply (adjust_string_identifier string ObjectId_of_24 "'"%char "'"%char
           "65f0c0ffee0123456789abcd" EmptyString).
  reflexivity.
Defined.

Lemma unclosed_identifier_raises_witness :
  json_object_hook string ObjectId_of_24
    [("limit", JInt 5); ("_id", JStr "ObjectId('65f0c0ffee"); ("skip", JInt 0)]
  = Raise (ValueError "substring not found")
  /\ json_object_hook string ObjectId_of_24
       [("owner", JStr "ObjectId('65f0')"); ("_id", JStr "ObjectId('65f0c0ffee")]
     = Raise (TypeError "id must be a 24-character hex string").
Proof.
  split.
  - apply (proj1 (proj2 (unclosed_identifier_raises string ObjectId_of_24
                           "ObjectId('65f0c0ffee" eq_refl eq_refl))
             [("limit", JInt 5)] [("limit", JInt 5)] "_id" [("skip", JInt 0)]).
    reflexivity.
  - apply (proj2 (proj2 (unclosed_identifier_raises string ObjectId_of_24
                           "ObjectId('65f0c0ffee" eq_refl eq_refl))
             [("owner", JStr "ObjectId('65f0')")]
             (TypeError "id must be a 24-character hex string") "_id" []).
    reflexivity.
Defined.

Lemma object_hook_identity_witness :
  json_object_hook string ObjectId_of_24
    [("filter", JDict [("user", JInt 7); ("tags", JList [JStr "a"; JNone])]);
     ("limit", JInt 5)]
  = Return [("filter", JDict [("user", JInt 7); ("tags", JList [JStr "a"; JNone])]);
            ("limit", JInt 5)].
Proof.
  apply (proj1 (object_hook_identity string ObjectId_of_24
                  [("filter", JDict [("user", JInt 7); ("tags", JList [JStr "a"; JNone])]);
                   ("limit", JInt 5)] eq_refl)).
Defined.
